(** * Archive service: task lifecycle and archive assembly (main.go)

    A shallow embedding of the HTTP handlers [handleTasks] and
    [handleTaskFiles], of the background job [createZipArchive] and of the
    helpers they call, followed by the properties of the task life cycle.

    Go strings are byte strings: they are modelled by [string], whose
    characters are the 256 values of [ascii]. *)

From Stdlib Require Import ZArith Ascii String List Lia DecimalString.
From stdpp Require Import base option list strings gmap.

Local Open Scope string_scope.
Local Open Scope list_scope.

(** ** Go standard library: the functions main.go calls *)

Definition chars (s : string) : list ascii := list_ascii_of_string s.

Definition str (l : list ascii) : string := string_of_list_ascii l.

Definition isSep (c : ascii) : bool := Ascii.eqb c "/".

(** [strings.HasPrefix]. *)
Definition strings_HasPrefix (s prefix : string) : bool := String.prefix prefix s.

(** [strings.Split(s, sep)] for a one-byte separator. *)
Fixpoint strings_Split (s : string) (sep : ascii) : list string :=
  match s with
  | EmptyString => [EmptyString]
  | String c s' =>
      if Ascii.eqb c sep then EmptyString :: strings_Split s' sep
      else match strings_Split s' sep with
           | x :: xs => String c x :: xs
           | [] => [String c EmptyString]
           end
  end.

(** [strings.Join(elems, sep)]. *)
Fixpoint strings_Join (elems : list string) (sep : string) : string :=
  match elems with
  | [] => ""
  | [x] => x
  | x :: xs => x +:+ sep +:+ strings_Join xs sep
  end.

(** [strings.Cut(s, sep)] for a one-byte separator: the text before the
    first [sep], the text after it, and whether [sep] occurs. *)
Fixpoint strings_Cut (s : string) (sep : ascii) : string * string * bool :=
  match s with
  | EmptyString => (EmptyString, EmptyString, false)
  | String c s' =>
      if Ascii.eqb c sep then (EmptyString, s', true)
      else let '(b, a, found) := strings_Cut s' sep in (String c b, a, found)
  end.

Definition strings_Contains (s : string) (c : ascii) : bool :=
  existsb (Ascii.eqb c) (chars s).

(** [strings.ToLower] on the ASCII letters.  Bytes from 128 on are kept: the
    only use is a comparison with ".jpeg", ".jpg" and ".pdf", and no letter
    of these is the lower case of a character outside ASCII. *)
Definition lowerByte (c : ascii) : ascii :=
  let n := nat_of_ascii c in
  if (65 <=? n)%nat && (n <=? 90)%nat then ascii_of_nat (n + 32) else c.

Definition strings_ToLower (s : string) : string := str (List.map lowerByte (chars s)).

(** [fmt.Sprintf("%d", n)]. *)
Definition itoa (n : Z) : string := NilZero.string_of_int (Z.to_int n).

(** *** path/filepath (Unix) *)

Fixpoint dropSeps (l : list ascii) : list ascii :=
  match l with
  | c :: l' => if isSep c then dropSeps l' else l
  | [] => []
  end.

Fixpoint takeElem (l : list ascii) : list ascii :=
  match l with
  | c :: l' => if isSep c then [] else c :: takeElem l'
  | [] => []
  end.

(** [filepath.Base]: trailing separators are stripped, then the text after
    the last separator is returned; "." for the empty path and "/" for a
    path of separators only. *)
Definition filepath_Base (path : string) : string :=
  match path with
  | EmptyString => "."
  | _ =>
      match takeElem (dropSeps (rev (chars path))) with
      | [] => "/"
      | e => str (rev e)
      end
  end.

(** [filepath.Ext]: the suffix starting at the last dot of the last
    element, scanning from the end and stopping at a separator. *)
Fixpoint extScan (r acc : list ascii) : list ascii :=
  match r with
  | [] => []
  | c :: r' =>
      if isSep c then []
      else if Ascii.eqb c "." then c :: acc
      else extScan r' (c :: acc)
  end.

Definition filepath_Ext (path : string) : string := str (extScan (rev (chars path)) []).

(** [filepath.Clean], element by element.  [out] is the stack of elements
    written so far, most recent first; a ".." on the stack is one that could
    not be resolved (Go's [dotdot] mark). *)
Fixpoint cleanElems (rooted : bool) (elems out : list string) : list string :=
  match elems with
  | [] => rev out
  | e :: es =>
      if String.eqb e "" then cleanElems rooted es out
      else if String.eqb e "." then cleanElems rooted es out
      else if String.eqb e ".." then
        match out with
        | top :: out' =>
            if String.eqb top ".." then cleanElems rooted es (e :: out)
            else cleanElems rooted es out'
        | [] => if rooted then cleanElems rooted es out
                else cleanElems rooted es (e :: out)
        end
      else cleanElems rooted es (e :: out)
  end.

Definition filepath_Clean (path : string) : string :=
  match path with
  | EmptyString => "."
  | String c _ =>
      let rooted := isSep c in
      let body := strings_Join (cleanElems rooted (strings_Split path "/") []) "/" in
      if rooted then String "/" body
      else match body with EmptyString => "." | _ => body end
  end.

(** [filepath.Join]: empty elements before the first non-empty one are
    ignored, the rest is joined with separators and cleaned. *)
Fixpoint filepath_Join (elem : list string) : string :=
  match elem with
  | [] => ""
  | e :: es =>
      if String.eqb e "" then filepath_Join es
      else filepath_Clean (strings_Join elem "/")
  end.

(** *** net/url

    [url.Parse] and [URL.Query] as far as [parseURL] observes them: whether
    parsing fails, the decoded [Path] and the raw query.  The user name, the
    password and the host are checked but only the host is kept.  Zone
    identifiers of bracketed IPv6 hosts are checked like the rest of the
    host. *)

Inductive encoding := encodePath | encodeHost | encodeUserPassword
                    | encodeQueryComponent | encodeFragment.

Definition byteIn (c : ascii) (set : string) : bool := strings_Contains set c.

Definition isDigit (c : ascii) : bool :=
  let n := nat_of_ascii c in (48 <=? n)%nat && (n <=? 57)%nat.

Definition isAlpha (c : ascii) : bool :=
  let n := nat_of_ascii c in
  ((97 <=? n)%nat && (n <=? 122)%nat) || ((65 <=? n)%nat && (n <=? 90)%nat).

Definition ishex (c : ascii) : bool :=
  let n := nat_of_ascii c in
  isDigit c || ((97 <=? n)%nat && (n <=? 102)%nat) || ((65 <=? n)%nat && (n <=? 70)%nat).

Definition unhex (c : ascii) : nat :=
  let n := nat_of_ascii c in
  if isDigit c then n - 48
  else if (97 <=? n)%nat then n - 97 + 10
  else n - 65 + 10.

(** The bytes [unescape] lets through unescaped in a host: those for which
    [shouldEscape(c, encodeHost)] is false, and every byte from 128 on. *)
Definition hostByteOK (c : ascii) : bool :=
  isAlpha c || isDigit c || byteIn c "!$&'()*+,;=:[]<>-_.~"
  || (nat_of_ascii c =? 34)%nat || (128 <=? nat_of_ascii c)%nat.

(** [unescape(s, mode)]: [None] for a malformed escape or a byte that the
    mode does not allow. *)
Fixpoint unescape (mode : encoding) (s : list ascii) : option (list ascii) :=
  match s with
  | [] => Some []
  | c :: rest =>
      if Ascii.eqb c "%" then
        match rest with
        | h1 :: h2 :: rest' =>
            if ishex h1 && ishex h2 then
              match mode with
              | encodeHost =>
                  if (unhex h1 <? 8)%nat && negb (Ascii.eqb h1 "2" && Ascii.eqb h2 "5")
                  then None
                  else option_map (cons (ascii_of_nat (16 * unhex h1 + unhex h2)))
                                  (unescape mode rest')
              | _ => option_map (cons (ascii_of_nat (16 * unhex h1 + unhex h2)))
                                (unescape mode rest')
              end
            else None
        | _ => None
        end
      else if Ascii.eqb c "+" then
        option_map (cons (match mode with encodeQueryComponent => " "%char | _ => c end))
                   (unescape mode rest)
      else
        match mode with
        | encodeHost =>
            if hostByteOK c then option_map (cons c) (unescape mode rest) else None
        | _ => option_map (cons c) (unescape mode rest)
        end
  end.

Definition unescapeStr (mode : encoding) (s : string) : option string :=
  option_map str (unescape mode (chars s)).

Record URL := mkURL {
  Scheme : string;
  Opaque : string;
  Host : string;
  Path : string;
  RawQuery : string;
  Fragment : string
}.

(** [getScheme]: [None] is the error "missing protocol scheme", otherwise
    the scheme (possibly empty) and the rest. *)
Fixpoint schemeScan (first : bool) (acc s : list ascii) (whole : list ascii)
  : option (list ascii * list ascii) :=
  match s with
  | [] => Some ([], whole)
  | c :: s' =>
      if isAlpha c then schemeScan false (c :: acc) s' whole
      else if isDigit c || byteIn c "+-." then
        if first then Some ([], whole) else schemeScan false (c :: acc) s' whole
      else if Ascii.eqb c ":" then
        if first then None else Some (rev acc, s')
      else Some ([], whole)
  end.

Definition getScheme (rawURL : string) : option (string * string) :=
  match schemeScan true [] (chars rawURL) (chars rawURL) with
  | Some (s, r) => Some (str s, str r)
  | None => None
  end.

Definition stringContainsCTLByte (s : string) : bool :=
  existsb (fun c => let n := nat_of_ascii c in (n <? 32)%nat || (n =? 127)%nat) (chars s).

(** [validOptionalPort]: empty, or a colon followed by digits. *)
Definition validOptionalPort (port : string) : bool :=
  match port with
  | EmptyString => true
  | String c ds => Ascii.eqb c ":" && forallb isDigit (chars ds)
  end.

(** Text after the last occurrence of [c], with that byte, when there is one. *)
Fixpoint fromLast (c : ascii) (s : list ascii) : option (list ascii) :=
  match s with
  | [] => None
  | d :: s' =>
      match fromLast c s' with
      | Some t => Some t
      | None => if Ascii.eqb d c then Some s else None
      end
  end.

Definition parseHost (host : string) : option string :=
  let portOK :=
    if strings_HasPrefix host "[" then
      match fromLast "]" (chars host) with
      | None => false
      | Some t => validOptionalPort (str (tl t))
      end
    else
      match fromLast ":" (chars host) with
      | None => true
      | Some t => validOptionalPort (str t)
      end in
  if portOK then unescapeStr encodeHost host else None.

Definition validUserinfo (s : string) : bool :=
  forallb (fun c => isAlpha c || isDigit c || byteIn c "-._:~!$&'()*+,;=%@") (chars s).

(** Text before the last occurrence of [c] (without it). *)
Definition beforeLast (c : ascii) (s : string) : string :=
  match fromLast c (chars s) with
  | Some t => str (firstn (List.length (chars s) - List.length t) (chars s))
  | None => s
  end.

Definition parseAuthority (authority : string) : option string :=
  match fromLast "@" (chars authority) with
  | None => parseHost authority
  | Some t =>
      match parseHost (str (tl t)) with
      | None => None
      | Some host =>
          let userinfo := beforeLast "@" authority in
          if validUserinfo userinfo then
            let '(username, password, _) := strings_Cut userinfo ":" in
            match unescapeStr encodeUserPassword username,
                  unescapeStr encodeUserPassword password with
            | Some _, Some _ => Some host
            | _, _ => None
            end
          else None
      end
  end.

(** [parse(rawURL, false)]. *)
Definition url_parse (rawURL : string) : option URL :=
  if stringContainsCTLByte rawURL then None
  else if String.eqb rawURL "*" then Some (mkURL "" "" "" "*" "" "")
  else
    match getScheme rawURL with
    | None => None
    | Some (scheme0, rest0) =>
        let scheme := strings_ToLower scheme0 in
        let '(rest, rawQuery) :=
          let '(b, a, _) := strings_Cut rest0 "?" in (b, a) in
        if negb (strings_HasPrefix rest "/") && negb (String.eqb scheme "") then
          Some (mkURL scheme rest "" "" rawQuery "")
        else if negb (strings_HasPrefix rest "/")
                && strings_Contains (fst (fst (strings_Cut rest "/"))) ":" then None
        else
          let '(hostRes, rest') :=
            if (negb (String.eqb scheme "") || negb (strings_HasPrefix rest "///"))
               && strings_HasPrefix rest "//" then
              let '(authority, tail, found) :=
                strings_Cut (String.substring 2 (String.length rest - 2) rest) "/" in
              (parseAuthority authority, if found then String "/" tail else "")
            else (Some "", rest) in
          match hostRes, unescapeStr encodePath rest' with
          | Some host, Some path => Some (mkURL scheme "" host path rawQuery "")
          | _, _ => None
          end
    end.

(** [url.Parse]: the fragment is cut off first and must unescape. *)
Definition url_Parse (rawURL : string) : option URL :=
  let '(u, frag, _) := strings_Cut rawURL "#" in
  match url_parse u with
  | None => None
  | Some url =>
      if String.eqb frag "" then Some url
      else match unescapeStr encodeFragment frag with
           | Some f => Some (mkURL (Scheme url) (Opaque url) (Host url) (Path url)
                                   (RawQuery url) f)
           | None => None
           end
  end.

(** [url.ParseQuery] as [URL.Query] uses it: the pairs in order of
    appearance; a pair with a semicolon or a malformed escape is dropped. *)
Definition parsePair (kv : string) : option (string * string) :=
  if strings_Contains kv ";" then None
  else if String.eqb kv "" then None
  else
    let '(k, v, _) := strings_Cut kv "=" in
    match unescapeStr encodeQueryComponent k, unescapeStr encodeQueryComponent v with
    | Some k', Some v' => Some (k', v')
    | _, _ => None
    end.

Definition URL_Query (u : URL) : list (string * string) :=
  omap parsePair (strings_Split (RawQuery u) "&").

(** [Values.Get]: the first value of the key, or the empty string. *)
Fixpoint Values_Get (v : list (string * string)) (key : string) : string :=
  match v with
  | [] => ""
  | (k, x) :: v' => if String.eqb k key then x else Values_Get v' key
  end.

(** ** main.go: configuration and data *)

Definition MaxActiveTasks_const : Z := 3.

Definition MaxFilesPerTask_const : Z := 3.

Definition TaskIDPathParts : nat := 3.

Record Config := mkConfig {
  AllowedExtensions : list (string * bool);
  MaxFilesPerTask : Z;
  MaxActiveTasks : Z;
  TempFolder : string;
  ServerPort : string
}.

Definition config : Config :=
  {| AllowedExtensions := [(".pdf", true); (".jpeg", true); (".jpg", true)];
     MaxFilesPerTask := MaxFilesPerTask_const;
     MaxActiveTasks := MaxActiveTasks_const;
     TempFolder := "temp_archives";
     ServerPort := "8080" |}.

Record File := mkFile {
  URL_ : string;
  Filename : string;
  Data : list Byte.byte
}.

(** The [Mutex] field is not part of the record: who holds it is visible in
    the operation traces of the handlers below. *)
Record Task := mkTask {
  ID : string;
  Status : string;
  Files : list File;
  Errors : list string;
  ZipPath : string;
  CreatedAt : Z
}.

Definition setStatus (s : string) (t : Task) : Task :=
  mkTask (ID t) s (Files t) (Errors t) (ZipPath t) (CreatedAt t).

Definition addError (e : string) (t : Task) : Task :=
  mkTask (ID t) (Status t) (Files t) (Errors t ++ [e]) (ZipPath t) (CreatedAt t).

Definition appendFile (f : File) (t : Task) : Task :=
  mkTask (ID t) (Status t) (Files t ++ [f]) (Errors t) (ZipPath t) (CreatedAt t).

Definition setZipPath (p : string) (t : Task) : Task :=
  mkTask (ID t) (Status t) (Files t) (Errors t) p (CreatedAt t).

(** ** main.go: helpers *)

(** [generateTaskID]: the clock reading in nanoseconds, in decimal. *)
Definition generateTaskID (unixNano : Z) : string := itoa unixNano.

Definition isValidURL (url : string) : bool :=
  strings_HasPrefix url "http://" || strings_HasPrefix url "https://".

(** [parseURL]: [inl] is the returned error; for an error of [url.Parse]
    only the fact is kept, not the text. *)
Definition parseURL (rawURL : string) : string + string :=
  match url_Parse rawURL with
  | None => inl "parse error"
  | Some u =>
      let q := URL_Query u in
      let filename := Values_Get q "filename" in
      if negb (String.eqb filename "") then inr filename
      else
        let path := Path u in
        if String.eqb path "" then inl "no filename in URL"
        else inr (filepath_Base path)
  end.

Definition hasAllowedExtension (rawURL : string) : bool :=
  match parseURL rawURL with
  | inl _ => false
  | inr filename =>
      let ext := strings_ToLower (filepath_Ext filename) in
      if String.eqb ext ".jpeg" || String.eqb ext ".jpg" || String.eqb ext ".pdf"
      then true else false
  end.

(** What the network does on [http.Get(url)] followed by
    [io.ReadAll(resp.Body)]: chosen by the environment. *)
Inductive ReadAllResult :=
| ReadFailed (err : string)
| ReadOK (data : list Byte.byte).

Inductive HttpGetResult :=
| GetFailed (err : string)
| GetResponse (StatusCode : Z) (body : ReadAllResult).

(** [downloadFile]: [inl] is the returned error, [inr] the data and the
    file name. *)
Definition downloadFile (url : string) (net : HttpGetResult)
  : string + (list Byte.byte * string) :=
  match net with
  | GetFailed err => inl err
  | GetResponse code body =>
      if negb (code =? 200)%Z then inl ("HTTP status " +:+ itoa code)
      else
        match body with
        | ReadFailed err => inl err
        | ReadOK data =>
            let filename := filepath_Base url in
            let filename :=
              if String.eqb filename "." || String.eqb filename "/"
              then "file" +:+ filepath_Ext url else filename in
            inr (data, filename)
        end
  end.

(** An incoming request.  The body is given by what reading and decoding it
    yields: [io.ReadAll] fails, [json.Unmarshal] fails, or the request
    struct is filled ([URL] stays empty when the body has no "url"). *)
Inductive RequestBody :=
| BodyUnreadable (err : string)
| BodyMalformed (err : string)
| BodyJSON (url : string).

Record Request := mkRequest {
  Method : string;
  URLPath : string;
  ContentType : string;
  Body : RequestBody
}.

(** [decodeJSONBody]: [inl] is the returned error, [inr] the decoded
    [request.URL]; the flag tells whether the body was read. *)
Definition decodeJSONBody (r : Request) : (string + string) * bool :=
  if negb (String.eqb (ContentType r) "application/json")
  then (inl "content type is not application/json", false)
  else
    match Body r with
    | BodyUnreadable err => (inl err, true)
    | BodyMalformed err => (inl err, true)
    | BodyJSON url => (inr url, true)
    end.

(** ** Request handlers on one task

    A handler runs on the task it was routed to.  Its run yields the HTTP
    response, the task as it leaves it and the sequence of operations it
    performed on the task's mutex, the request body, the network and the
    scheduler. *)

Inductive Op :=
| OpLock                      (* task.Mutex.Lock() *)
| OpUnlock                    (* task.Mutex.Unlock() *)
| OpReadBody                  (* io.ReadAll(r.Body) *)
| OpHttpGet (url : string)    (* http.Get(url) *)
| OpGo                        (* go createZipArchive(task) *).

Global Instance Op_eq_dec : EqDecision Op.
Proof. solve_decision. Defined.

Record StatusReport := mkReport {
  task_id : string;
  status : string;
  files_count : nat;
  errors : list string;
  download_url : option string
}.

Inductive Response :=
| HttpError (msg : string) (code : Z)          (* http.Error(w, msg, code) *)
| HttpReply (code : Z) (body : string)         (* w.WriteHeader(code); fmt.Fprintf(w, ...) *)
| HttpJSON (code : Z) (report : StatusReport)  (* sendJSONResponse(w, code, response) *).

Record Run (A : Type) := mkRun {
  result : Response + A;    (* [inl]: the handler has written its response and returned *)
  after : Task;
  ops : list Op
}.

Arguments mkRun {A} _ _ _.

Arguments result {A} _.

Arguments after {A} _.

Arguments ops {A} _.

Definition Handler (A : Type) : Type := Task -> Run A.

Definition hret {A} (a : A) : Handler A := fun t => mkRun (inr a) t [].

Definition hbind {A B} (m : Handler A) (f : A -> Handler B) : Handler B :=
  fun t =>
    let r := m t in
    match result r with
    | inl resp => mkRun (inl resp) (after r) (ops r)
    | inr a => let r' := f a (after r) in mkRun (result r') (after r') (ops r ++ ops r')
    end.

Global Instance Handler_ret : MRet Handler := @hret.

Global Instance Handler_bind : MBind Handler := fun A B f m => hbind m f.

Definition emit (o : Op) : Handler unit := fun t => mkRun (inr tt) t [o].

Definition getTask : Handler Task := fun t => mkRun (inr t) t [].

Definition update (f : Task -> Task) : Handler unit := fun t => mkRun (inr tt) (f t) [].

(** Write the response and [return]. *)
Definition respond {A} (resp : Response) : Handler A := fun t => mkRun (inl resp) t [].

(** [task.Mutex.Lock(); defer task.Mutex.Unlock()]: the unlock runs when the
    handler returns, on every path. *)
Definition lockDeferUnlock {A} (body : Handler A) : Handler A :=
  fun t => let r := body t in mkRun (result r) (after r) (OpLock :: ops r ++ [OpUnlock]).

(** The response a run ends with. *)
Definition response (r : Run Response) : Response :=
  match result r with inl resp => resp | inr resp => resp end.

(** The JSON texts the handlers print: [{"k": v, ...}] with the values
    already rendered. *)
Definition dquote : string := String (ascii_of_nat 34) EmptyString.

Definition jstr (s : string) : string := dquote +:+ s +:+ dquote.

Definition jsonField (kv : string * string) : string := jstr (fst kv) +:+ ": " +:+ snd kv.

Definition jsonObj (fields : list (string * string)) : string :=
  "{" +:+ strings_Join (List.map jsonField fields) ", " +:+ "}".

Section Handlers.
Variable cfg : Config.

(** [decodeJSONBody] inside the handler, with its error branch. *)
Definition decodeRequest (r : Request) : Handler string :=
  let '(res, read) := decodeJSONBody r in
  (if read then emit OpReadBody else mret tt);;
  match res with
  | inl _ => respond (HttpError (jsonObj [("error", jstr "Invalid request body")]) 400)
  | inr url => mret url
  end.

(** The message of line 187. *)
Definition downloadDiagnostic (url err : string) : string :=
  "Failed to download " +:+ url +:+ ": " +:+ err.

(** [handleTaskFiles], case [http.MethodPost], from [task.Mutex.Lock()] on. *)
Definition postFile (r : Request) (net : HttpGetResult) : Handler Response :=
  lockDeferUnlock (
    task ← getTask;
    if (Z.of_nat (length (Files task)) >=? MaxFilesPerTask cfg)%Z then
      respond (HttpError (jsonObj [("error", jstr "Maximum files per task reached")]) 400)
    else
      url ← decodeRequest r;
      if negb (isValidURL url) then
        respond (HttpError (jsonObj [("error", jstr "Invalid URL")]) 400)
      else if negb (hasAllowedExtension url) then
        respond (HttpError (jsonObj [("error", jstr "File type not allowed")]) 400)
      else
        emit (OpHttpGet url);;
        match downloadFile url net with
        | inl err =>
            update (addError (downloadDiagnostic url err));;
            task ← getTask;
            respond (HttpReply 202 (jsonObj
              [("task_id", jstr (ID task)); ("status", jstr (Status task));
               ("error", jstr "Failed to download file, please, try other service")]))
        | inr (data, filename) =>
            update (appendFile (mkFile url filename data));;
            task ← getTask;
            (if (Z.of_nat (length (Files task)) =? MaxFilesPerTask cfg)%Z then
               update (setStatus "processing");;
               emit OpGo
             else mret tt);;
            task ← getTask;
            mret (HttpReply 202 (jsonObj
              [("task_id", jstr (ID task)); ("status", jstr (Status task));
               ("files_count", itoa (Z.of_nat (length (Files task))))]))
        end).

(** [handleTaskFiles], case [http.MethodGet]. *)
Definition getStatus : Handler Response :=
  lockDeferUnlock (
    task ← getTask;
    let download :=
      if String.eqb (Status task) "completed" && negb (String.eqb (ZipPath task) "")
      then Some ("/download/" +:+ filepath_Base (ZipPath task)) else None in
    mret (HttpJSON 200
      (mkReport (ID task) (Status task) (length (Files task)) (Errors task) download))).

(** Whether the run started the archive build. *)
Definition dispatched {A} (r : Run A) : bool := bool_decide (OpGo ∈ ops r).

End Handlers.

Definition task0 : Task := mkTask "17" "created" [] [] "" 0.

Definition pdfRequest : Request :=
  mkRequest "POST" "/tasks/17/files" "application/json" (BodyJSON "http://h/a.pdf").

(** ** createZipArchive *)

(** What the storage does for one entry of the archive: [zipWriter.Create]
    fails, [fileWriter.Write] fails, or the entry is written. *)
Inductive EntryResult :=
| EntryWritten
| EntryCreateFailed (err : string)
| EntryWriteFailed (err : string).

(** The entries completely written to the archive, in order: name and data. *)
Definition Archive : Type := list (string * list Byte.byte).

Section Builder.
Variable cfg : Config.

Definition zipPathOf (task : Task) : string :=
  filepath_Join [TempFolder cfg; ID task +:+ ".zip"].

(** Lines 250-257: [os.Create] failed with [err]. *)
Definition createFailed (err : string) (task : Task) : Task :=
  addError ("Failed to create zip file: " +:+ err) (setStatus "failed" task).

(** Lines 264-276: one iteration of the loop. *)
Definition writeEntry (file : File) (res : EntryResult) (task : Task) (zip : Archive)
  : Task * Archive :=
  match res with
  | EntryCreateFailed err =>
      (addError ("Failed to add file " +:+ Filename file +:+ " to archive: " +:+ err) task,
       zip)
  | EntryWriteFailed err =>
      (addError ("Failed to write file " +:+ Filename file +:+ " to archive: " +:+ err) task,
       zip)
  | EntryWritten => (task, zip ++ [(Filename file, Data file)])
  end.

(** Lines 279-282: both fields are written in one critical section. *)
Definition markCompleted (task : Task) : Task :=
  setZipPath (zipPathOf task) (setStatus "completed" task).

(** The loop of lines 263-277 run to its end; [zipIO i] is what the storage
    does for the entry of index [i]. *)
Fixpoint writeEntries (files : list File) (i : nat) (zipIO : nat -> EntryResult)
         (task : Task) (zip : Archive) : Task * Archive :=
  match files with
  | [] => (task, zip)
  | file :: files' =>
      let '(task', zip') := writeEntry file (zipIO i) task zip in
      writeEntries files' (S i) zipIO task' zip'
  end.

(** [createZipArchive] run from start to end on a task nobody else
    touches meanwhile; [osCreate] is the error of [os.Create], if any.  The
    deferred release of the admission slot is part of the system below. *)
Definition createZipArchive (osCreate : option string) (zipIO : nat -> EntryResult)
           (task : Task) : Task * Archive :=
  match osCreate with
  | Some err => (createFailed err task, [])
  | None =>
      let '(task', zip) := writeEntries (Files task) 0 zipIO task [] in
      (markCompleted task', zip)
  end.

End Builder.

(** ** The server: registry, admission channel, goroutines *)

(** Where a [createZipArchive] goroutine stands. *)
Inductive PC :=
| PcCreate                    (* before os.Create *)
| PcLoop (rest : list File)   (* in the loop, [rest] still to write *)
| PcRelease                   (* returning: the deferred <-taskSem is next *)
| PcExited.

Record Goroutine := mkGoroutine {
  target : nat;       (* the *Task it was started with *)
  pc : PC;
  zip : Archive
}.

Record State := mkState {
  heap : list Task;             (* every Task allocated, by address *)
  tasks : gmap string nat;      (* the registry: task id to address *)
  taskSem : nat;                (* number of elements in the channel *)
  goroutines : list Goroutine;  (* every go createZipArchive(task) started *)
  acquired : nat;               (* count of successful taskSem <- struct{}{} *)
  released : nat                (* count of completed <-taskSem *)
}.

Definition init : State := mkState [] ∅ 0 [] 0 0.

Definition setHeap (h : list Task) (st : State) : State :=
  mkState h (tasks st) (taskSem st) (goroutines st) (acquired st) (released st).

Definition setGoroutines (gs : list Goroutine) (st : State) : State :=
  mkState (heap st) (tasks st) (taskSem st) gs (acquired st) (released st).

Definition lookupTask (st : State) (taskID : string) : option (nat * Task) :=
  match tasks st !! taskID with
  | Some p => match heap st !! p with Some task => Some (p, task) | None => None end
  | None => None
  end.

Section Server.
Variable cfg : Config.

(** [handleTasks]; the two clock readings are [idNow] and [createdNow]. *)
Definition handleTasks (st : State) (r : Request) (idNow createdNow : Z)
  : State * Response :=
  if negb (String.eqb (Method r) "POST") then
    (st, HttpError "Method not allowed" 405)
  else if (Z.of_nat (taskSem st) <? MaxActiveTasks cfg)%Z then
    let taskID := generateTaskID idNow in
    let newTask := mkTask taskID "created" [] [] "" createdNow in
    (mkState (heap st ++ [newTask]) (<[taskID := length (heap st)]> (tasks st))
             (S (taskSem st)) (goroutines st) (S (acquired st)) (released st),
     HttpReply 201 (jsonObj [("task_id", jstr taskID); ("status", jstr "created")]))
  else
    (st, HttpError (jsonObj [("error", jstr "Server is busy. Try again later.")]) 503).

(** [handleTaskFiles].  The handler works on the task under the task's
    mutex from its first access to its return, so its run is one step of
    the server. *)
Definition handleTaskFiles (st : State) (r : Request) (net : HttpGetResult)
  : State * Response * list Op :=
  let pathParts := strings_Split (URLPath r) "/" in
  if (length pathParts <? TaskIDPathParts)%nat then
    (st, HttpError "Invalid task ID" 400, [])
  else
    let taskID := nth 2 pathParts "" in
    match lookupTask st taskID with
    | None => (st, HttpError "Task not found" 404, [])
    | Some (p, task) =>
        if String.eqb (Method r) "POST" then
          let run := postFile cfg r net task in
          let st' := setHeap (<[p := after run]> (heap st)) st in
          let st'' := if dispatched run
                      then setGoroutines (goroutines st' ++ [mkGoroutine p PcCreate []]) st'
                      else st' in
          (st'', response run, ops run)
        else if String.eqb (Method r) "GET" then
          let run := getStatus task in
          (st, response run, ops run)
        else (st, HttpError "Method not allowed" 405, [])
    end.

(** One step of goroutine [g] between two of its blocking points. *)
Inductive BuildStep :=
| OsCreate (res : option string)   (* os.Create returns *)
| ZipEntry (res : EntryResult)     (* one iteration of the loop *)
| Finish                           (* the loop is over: lines 279-282 *)
| Release                          (* the deferred <-taskSem *).

Definition buildStep (st : State) (g : nat) (b : BuildStep) : State :=
  match goroutines st !! g with
  | None => st
  | Some gr =>
      match heap st !! target gr with
      | None => st
      | Some task =>
          let store task' gr' :=
            setGoroutines (<[g := gr']> (goroutines st))
                          (setHeap (<[target gr := task']> (heap st)) st) in
          match pc gr, b with
          | PcCreate, OsCreate (Some err) =>
              store (createFailed err task) (mkGoroutine (target gr) PcRelease (zip gr))
          | PcCreate, OsCreate None =>
              store task (mkGoroutine (target gr) (PcLoop (Files task)) (zip gr))
          | PcLoop (file :: rest), ZipEntry res =>
              let '(task', zip') := writeEntry file res task (zip gr) in
              store task' (mkGoroutine (target gr) (PcLoop rest) zip')
          | PcLoop [], Finish =>
              store (markCompleted cfg task) (mkGoroutine (target gr) PcRelease (zip gr))
          | PcRelease, Release =>
              match taskSem st with
              | O => st   (* the receive blocks *)
              | S n =>
                  mkState (heap st) (tasks st) n
                          (<[g := mkGoroutine (target gr) PcExited (zip gr)]> (goroutines st))
                          (acquired st) (S (released st))
              end
          | _, _ => st   (* not the step the goroutine is at *)
          end
      end
  end.

(** What can happen next on the server. *)
Inductive Event :=
| EvTasks (r : Request) (idNow createdNow : Z)
| EvTaskFiles (r : Request) (net : HttpGetResult)
| EvBuild (g : nat) (b : BuildStep).

Definition step (st : State) (ev : Event) : State :=
  match ev with
  | EvTasks r idNow createdNow => fst (handleTasks st r idNow createdNow)
  | EvTaskFiles r net => fst (fst (handleTaskFiles st r net))
  | EvBuild g b => buildStep st g b
  end.

(** The state after a sequence of events, from the start of the process. *)
Definition run (evs : list Event) : State := fold_left step evs init.

End Server.

(** ** The tests and the responses of a POST, named *)

Section Responses.
Variable cfg : Config.

(** The test of line 157. *)
Definition atQuota (t : Task) : bool :=
  (Z.of_nat (length (Files t)) >=? MaxFilesPerTask cfg)%Z.

Definition quotaError : Response :=
  HttpError (jsonObj [("error", jstr "Maximum files per task reached")]) 400.

Definition bodyError : Response :=
  HttpError (jsonObj [("error", jstr "Invalid request body")]) 400.

Definition urlError : Response :=
  HttpError (jsonObj [("error", jstr "Invalid URL")]) 400.

Definition typeError : Response :=
  HttpError (jsonObj [("error", jstr "File type not allowed")]) 400.

Definition fetchFailedReply (t : Task) : Response :=
  HttpReply 202 (jsonObj
    [("task_id", jstr (ID t)); ("status", jstr (Status t));
     ("error", jstr "Failed to download file, please, try other service")]).

Definition storedReply (t : Task) : Response :=
  HttpReply 202 (jsonObj
    [("task_id", jstr (ID t)); ("status", jstr (Status t));
     ("files_count", itoa (Z.of_nat (length (Files t))))]).

(** The test of line 206, on the task with the file appended. *)
Definition reachesQuota (t : Task) : bool :=
  (Z.of_nat (length (Files t)) =? MaxFilesPerTask cfg)%Z.

End Responses.

(** What a POST does to its task: nothing, one diagnostic more, or one file
    more; the build is started with the file that reaches the quota. *)
Inductive PostEffect (cfg : Config) (task : Task) (run : Run Response) : Prop :=
| PostRejected :
    after run = task -> dispatched run = false -> PostEffect cfg task run
| PostFetchFailed (e : string) :
    atQuota cfg task = false ->
    after run = addError e task -> dispatched run = false -> PostEffect cfg task run
| PostStored (f : File) :
    atQuota cfg task = false ->
    reachesQuota cfg (appendFile f task) = false ->
    after run = appendFile f task -> dispatched run = false -> PostEffect cfg task run
| PostStoredLast (f : File) :
    atQuota cfg task = false ->
    reachesQuota cfg (appendFile f task) = true ->
    after run = setStatus "processing" (appendFile f task) ->
    dispatched run = true -> PostEffect cfg task run.

Arguments postFile : simpl never.

Arguments getStatus : simpl never.

(** ** The invariant of the server *)

Section Invariant.
Variable cfg : Config.

(** What the task of a goroutine looks like, by where the goroutine stands. *)
Definition pcOK (c : PC) (task : Task) : Prop :=
  match c with
  | PcCreate | PcLoop _ => Status task = "processing" /\ ZipPath task = ""
  | PcRelease | PcExited =>
      (Status task = "failed" /\ ZipPath task = "")
      \/ (Status task = "completed" /\ ZipPath task = zipPathOf cfg task)
  end.

Definition taskOK (gs : list Goroutine) (p : nat) (task : Task) : Prop :=
  (p ∉ target <$> gs -> Status task = "created" /\ ZipPath task = "")
  /\ (forall g gr, gs !! g = Some gr -> target gr = p ->
        Z.of_nat (length (Files task)) = MaxFilesPerTask cfg /\ pcOK (pc gr) task).

Record Inv (st : State) : Prop := mkInv {
  inv_nodup : NoDup (target <$> goroutines st);
  inv_tasks : forall p task, heap st !! p = Some task -> taskOK (goroutines st) p task;
  inv_target : forall g gr, goroutines st !! g = Some gr -> target gr < length (heap st);
  inv_registry : forall id p, tasks st !! id = Some p -> p < length (heap st)
}.

End Invariant.

(** ** What one step of the server does to one task *)

(** Number of [createZipArchive] goroutines started for the task at [p]. *)
Definition dispatches (st : State) (p : nat) : nat :=
  length (filter (fun q => q = p) (target <$> goroutines st)).

(** The ways a task changes in one step, with the number of builds the step
    starts for it. *)
Inductive TaskChange (cfg : Config) (task : Task) : Task -> nat -> Prop :=
| Unchanged : TaskChange cfg task task 0
| Diagnosed e : TaskChange cfg task (addError e task) 0
| FileStored f :
    atQuota cfg task = false ->
    reachesQuota cfg (appendFile f task) = false ->
    TaskChange cfg task (appendFile f task) 0
| FileStoredLast f :
    atQuota cfg task = false ->
    reachesQuota cfg (appendFile f task) = true ->
    TaskChange cfg task (setStatus "processing" (appendFile f task)) 1
| BuildFailed e :
    Status task = "processing" -> ZipPath task = "" ->
    TaskChange cfg task (createFailed e task) 0
| BuildCompleted :
    Status task = "processing" -> ZipPath task = "" ->
    TaskChange cfg task (markCompleted cfg task) 0.

Definition isExited (c : PC) : bool :=
  match c with PcExited => true | _ => false end.

(** Number of [createZipArchive] goroutines that have returned. *)
Definition exited (st : State) : nat :=
  length (filter (fun gr => isExited (pc gr)) (goroutines st)).

Section Counting.
Variable cfg : Config.

(** The admission channel and the counts of its operations. *)
Record SemInv (st : State) : Prop := mkSemInv {
  sem_balance : acquired st = released st + taskSem st;
  sem_cap : (Z.of_nat (taskSem st) <= MaxActiveTasks cfg)%Z;
  sem_acquired : acquired st = length (heap st);
  sem_released : released st = exited st
}.

End Counting.

(** ** Sample requests, tasks and runs *)

(** A run used to instantiate the theorems: a task is created, three
    submissions succeed, the archive is built. *)
Definition createRequest : Request := mkRequest "POST" "/tasks" "" (BodyJSON "").

Definition fetched : HttpGetResult := GetResponse 200 (ReadOK []).

Definition threeFiles : list Event :=
  [EvTasks createRequest 17 18;
   EvTaskFiles pdfRequest fetched; EvTaskFiles pdfRequest fetched;
   EvTaskFiles pdfRequest fetched].

Definition built : list Event :=
  threeFiles ++ [EvBuild 0 (OsCreate None); EvBuild 0 (ZipEntry EntryWritten);
                 EvBuild 0 (ZipEntry EntryWritten); EvBuild 0 (ZipEntry EntryWritten);
                 EvBuild 0 Finish].

Definition finished : list Event := built ++ [EvBuild 0 Release].

Definition pdfFile : File := mkFile "http://h/a.pdf" "a.pdf" [].

Definition fullTask : Task :=
  mkTask "17" "processing" [pdfFile; pdfFile; pdfFile] [] "" 18.

Definition doneTask : Task :=
  mkTask "17" "completed" [pdfFile; pdfFile; pdfFile] [] "temp_archives/17.zip" 18.

(** ** The operations of a POST, in order *)

(** Each operation of a trace with whether the task's mutex is held when it
    runs. *)
Fixpoint withLock (held : bool) (tr : list Op) : list (Op * bool) :=
  match tr with
  | [] => []
  | OpLock :: tr' => (OpLock, held) :: withLock true tr'
  | OpUnlock :: tr' => (OpUnlock, held) :: withLock false tr'
  | o :: tr' => (o, held) :: withLock held tr'
  end.

Definition isFetch (o : Op) : bool :=
  match o with OpHttpGet _ => true | _ => false end.

(** Every network fetch of the trace runs with the mutex free. *)
Definition fetchesUnlocked (tr : list Op) : bool :=
  forallb (fun oh => negb (isFetch (fst oh)) || negb (snd oh)) (withLock false tr).

(** Every network fetch of the trace runs with the mutex held. *)
Definition fetchesLocked (tr : list Op) : bool :=
  forallb (fun oh => negb (isFetch (fst oh)) || snd oh) (withLock false tr).

Definition notFound : HttpGetResult := GetResponse 404 (ReadOK []).

(** The diagnostics and the entries that the loop of [createZipArchive]
    produces for the files from index [i] on. *)
Fixpoint entryDiagnostics (files : list File) (i : nat) (zipIO : nat -> EntryResult)
  : list string :=
  match files with
  | [] => []
  | file :: files' =>
      match zipIO i with
      | EntryWritten => []
      | EntryCreateFailed err =>
          ["Failed to add file " +:+ Filename file +:+ " to archive: " +:+ err]
      | EntryWriteFailed err =>
          ["Failed to write file " +:+ Filename file +:+ " to archive: " +:+ err]
      end ++ entryDiagnostics files' (S i) zipIO
  end.

Fixpoint entriesWritten (files : list File) (i : nat) (zipIO : nat -> EntryResult)
  : Archive :=
  match files with
  | [] => []
  | file :: files' =>
      match zipIO i with
      | EntryWritten => [(Filename file, Data file)]
      | _ => []
      end ++ entriesWritten files' (S i) zipIO
  end.

(** The specification's "well-formed absolute URL", read as Go does:
    [url.Parse] accepts the text and the result has a scheme ([URL.IsAbs]). *)
Definition wellFormedAbsoluteURL (ref : string) : bool :=
  match url_Parse ref with
  | Some u => negb (String.eqb (Scheme u) "")
  | None => false
  end.

Definition postJSON (url : string) : Request :=
  mkRequest "POST" "/tasks/17/files" "application/json" (BodyJSON url).

Definition textRequest : Request :=
  mkRequest "POST" "/tasks/17/files" "text/plain" (BodyJSON "http://h/a.pdf").

Definition charsetRequest : Request :=
  mkRequest "POST" "/tasks/17/files" "application/json; charset=utf-8"
            (BodyJSON "http://h/a.pdf").

Definition malformedRequest : Request :=
  mkRequest "POST" "/tasks/17/files" "application/json" (BodyMalformed "unexpected end").

Definition queryNamed : string := "http://example.com/download?filename=report.pdf".

(** The steps of goroutine [g] from [os.Create] to the end of the loop. *)
Definition buildSchedule (g : nat) (osCreate : option string) (zipIO : nat -> EntryResult)
           (n : nat) : list Event :=
  EvBuild g (OsCreate osCreate)
  :: match osCreate with
     | Some _ => []
     | None => List.map (fun i => EvBuild g (ZipEntry (zipIO i))) (seq 0 n) ++ [EvBuild g Finish]
     end.

(** ** Notions used by the further properties *)

(** No path separator in the text. *)
Definition slashFree (s : string) : bool := forallb (fun c => negb (isSep c)) (chars s).

(** [strings.Count(s, sep)] for a one-byte separator. *)
Definition strings_Count (s : string) (sep : ascii) : nat :=
  List.length (List.filter (Ascii.eqb sep) (chars s)).

(** The two states a task does not leave. *)
Definition terminal (task : Task) : Prop :=
  Status task = "completed" \/ Status task = "failed".

(** How one step of the server may change a task: by a submission on a task
    still "created" and below its quota, or by the build of a task that is
    "processing" and holds its quota. *)
Inductive Transition (cfg : Config) (task : Task) : Task -> Prop :=
| TrNone : Transition cfg task task
| TrFetchFailed e :
    Status task = "created" -> atQuota cfg task = false ->
    Transition cfg task (addError e task)
| TrStored f :
    Status task = "created" -> atQuota cfg task = false ->
    reachesQuota cfg (appendFile f task) = false ->
    Transition cfg task (appendFile f task)
| TrStoredLast f :
    Status task = "created" -> atQuota cfg task = false ->
    reachesQuota cfg (appendFile f task) = true ->
    Transition cfg task (setStatus "processing" (appendFile f task))
| TrEntryFailed e :
    Status task = "processing" -> atQuota cfg task = true ->
    Transition cfg task (addError e task)
| TrCreateFailed e :
    Status task = "processing" -> atQuota cfg task = true ->
    Transition cfg task (createFailed e task)
| TrCompleted :
    Status task = "processing" -> atQuota cfg task = true ->
    Transition cfg task (markCompleted cfg task).

(** The registry and the identifiers: a registered id leads to a task that
    carries it, and every identifier was made by [generateTaskID]. *)
Definition RegInv (st : State) : Prop :=
  (forall id p, tasks st !! id = Some p ->
     exists task, heap st !! p = Some task /\ ID task = id)
  /\ (forall p task, heap st !! p = Some task -> exists n, ID task = generateTaskID n).

(** The report of [getStatus] on a task. *)
Definition reportOf (task : Task) : StatusReport :=
  mkReport (ID task) (Status task) (length (Files task)) (Errors task)
    (if String.eqb (Status task) "completed" && negb (String.eqb (ZipPath task) "")
     then Some ("/download/" +:+ filepath_Base (ZipPath task)) else None).

(** More sample requests and runs. *)
Definition getRequest : Request := mkRequest "GET" "/tasks/17" "" (BodyJSON "").

Definition threeTasks : list Event :=
  [EvTasks createRequest 1 1; EvTasks createRequest 2 2; EvTasks createRequest 3 3].

Definition shortPathRequest : Request := mkRequest "GET" "tasks" "" (BodyJSON "").

Definition pdfRequestNoSuffix : Request :=
  mkRequest "POST" "/tasks/17" "application/json" (BodyJSON "http://h/a.pdf").

(** What every stored file satisfies: its URL passed both checks of the
    POST handler and its name is a non-empty text without separator. *)
Definition checkedFile (f : File) : Prop :=
  isValidURL (URL_ f) = true /\ hasAllowedExtension (URL_ f) = true
  /\ Filename f <> "" /\ slashFree (Filename f) = true.

(** No "#" in the text. *)
Definition hashFree (s : string) : bool :=
  forallb (fun c => negb (Ascii.eqb c "#")) (chars s).

(** * Properties *)

(** ** The library models and the helpers on sample inputs *)

Example Base_ex1 : filepath_Base "http://h/a/b.pdf?x=1" = "b.pdf?x=1". Proof. reflexivity. Qed.

Example Base_ex2 : filepath_Base "///" = "/". Proof. reflexivity. Qed.

Example Base_ex3 : filepath_Base "a/b//" = "b". Proof. reflexivity. Qed.

Example Ext_ex1 : filepath_Ext "a.b/c.tar.gz" = ".gz". Proof. reflexivity. Qed.

Example Ext_ex2 : filepath_Ext "a.b/c" = "". Proof. reflexivity. Qed.

Example Clean_ex1 : filepath_Clean "a/../../b/./c//" = "../b/c". Proof. reflexivity. Qed.

Example Clean_ex2 : filepath_Clean "/../a/.." = "/". Proof. reflexivity. Qed.

Example Join_ex1 : filepath_Join ["temp_archives"; "17.zip"] = "temp_archives/17.zip".
Proof. reflexivity. Qed.

Example itoa_ex : itoa (-1753400000000000042) = "-1753400000000000042". Proof. reflexivity. Qed.

Example Split_ex : strings_Split "/tasks/17/files" "/" = [""; "tasks"; "17"; "files"].
Proof. reflexivity. Qed.

Example Parse_ex1 :
  url_Parse "https://example.com/a/b%20c.pdf?filename=x.jpg&y=1#top"
  = Some (mkURL "https" "" "example.com" "/a/b c.pdf" "filename=x.jpg&y=1" "top").
Proof. reflexivity. Qed.

Example Parse_ex2 : url_Parse "http://example.com/%zz.pdf" = None.
Proof. reflexivity. Qed.

Example Parse_ex3 : url_Parse "http://user:pw@[::1]:8080" =
  Some (mkURL "http" "" "[::1]:8080" "" "" "").
Proof. reflexivity. Qed.

Example Parse_ex4 : url_Parse "http://exa mple.com/a" = None.
Proof. reflexivity. Qed.

Example Parse_ex5 : url_Parse "mailto:someone@example.com" =
  Some (mkURL "mailto" "someone@example.com" "" "" "" "").
Proof. reflexivity. Qed.

Example Parse_ex6 : url_Parse "a:b/c" = Some (mkURL "a" "b/c" "" "" "" "").
Proof. reflexivity. Qed.

Example Parse_ex7 : url_Parse "1a:b/c" = None.
Proof. reflexivity. Qed.

Example Query_ex1 :
  URL_Query (mkURL "" "" "" "" "a=1&filename=x+y%2Ez&&b;c=2&filename=w" "")
  = [("a", "1"); ("filename", "x y.z"); ("filename", "w")].
Proof. reflexivity. Qed.

Example parseURL_ex1 : parseURL "http://h/a/b.PDF" = inr "b.PDF". Proof. reflexivity. Qed.

Example parseURL_ex2 : parseURL "http://h" = inl "no filename in URL". Proof. reflexivity. Qed.

Example ext_ex1 : hasAllowedExtension "http://h/a/b.PDF" = true. Proof. reflexivity. Qed.

Example ext_ex2 : hasAllowedExtension "http://h/a/b.exe" = false. Proof. reflexivity. Qed.

Example ext_ex3 : hasAllowedExtension "http://h/a/b.exe?filename=c.jpg" = true.
Proof. reflexivity. Qed.

Example postFile_ex1 :
  postFile config pdfRequest (GetResponse 200 (ReadOK [])) task0
  = mkRun (inr (HttpReply 202 (jsonObj [("task_id", jstr "17"); ("status", jstr "created");
                                        ("files_count", "1")])))
          (mkTask "17" "created" [mkFile "http://h/a.pdf" "a.pdf" []] [] "" 0)
          [OpLock; OpReadBody; OpHttpGet "http://h/a.pdf"; OpUnlock].
Proof. reflexivity. Qed.

Example postFile_ex2 :
  postFile config pdfRequest (GetResponse 404 (ReadOK [])) task0
  = mkRun (inl (HttpReply 202 (jsonObj [("task_id", jstr "17"); ("status", jstr "created");
             ("error", jstr "Failed to download file, please, try other service")])))
          (mkTask "17" "created" [] ["Failed to download http://h/a.pdf: HTTP status 404"] "" 0)
          [OpLock; OpReadBody; OpHttpGet "http://h/a.pdf"; OpUnlock].
Proof. reflexivity. Qed.

(** ** The POST handler, case by case *)

Ltac unfold_handler :=
  unfold postFile, getStatus, decodeRequest, lockDeferUnlock, respond, update, emit,
    getTask, mbind, mret, Handler_bind, Handler_ret, hbind, hret; cbn.

Section PostCasesFacts.
Variable cfg : Config.
Variables (r : Request) (net : HttpGetResult) (task : Task).

Lemma decodeJSONBody_inr url read :
  decodeJSONBody r = (inr url, read) ->
  read = true /\ ContentType r = "application/json" /\ Body r = BodyJSON url.
Proof.
  unfold decodeJSONBody.
  destruct (String.eqb (ContentType r) "application/json") eqn:Hct; cbn; [|discriminate].
  apply String.eqb_eq in Hct.
  destruct (Body r); intros [= ]; subst; auto.
Qed.

Lemma postFile_atQuota :
  atQuota cfg task = true ->
  postFile cfg r net task = mkRun (inl quotaError) task [OpLock; OpUnlock].
Proof.
  unfold atQuota. intros H. unfold_handler. rewrite H. reflexivity.
Qed.

Lemma postFile_badBody err read :
  atQuota cfg task = false ->
  decodeJSONBody r = (inl err, read) ->
  postFile cfg r net task
  = mkRun (inl bodyError) task
          (OpLock :: (if read then [OpReadBody] else []) ++ [OpUnlock]).
Proof.
  unfold atQuota. intros H Hd. unfold_handler. rewrite H, Hd.
  destruct read; reflexivity.
Qed.

Lemma postFile_badURL url read :
  atQuota cfg task = false ->
  decodeJSONBody r = (inr url, read) ->
  isValidURL url = false ->
  postFile cfg r net task = mkRun (inl urlError) task [OpLock; OpReadBody; OpUnlock].
Proof.
  unfold atQuota. intros H Hd Hv.
  destruct (decodeJSONBody_inr _ _ Hd) as (-> & _ & _).
  unfold_handler. rewrite H, Hd. cbn. rewrite Hv. reflexivity.
Qed.

Lemma postFile_badType url read :
  atQuota cfg task = false ->
  decodeJSONBody r = (inr url, read) ->
  isValidURL url = true ->
  hasAllowedExtension url = false ->
  postFile cfg r net task = mkRun (inl typeError) task [OpLock; OpReadBody; OpUnlock].
Proof.
  unfold atQuota. intros H Hd Hv He.
  destruct (decodeJSONBody_inr _ _ Hd) as (-> & _ & _).
  unfold_handler. rewrite H, Hd. cbn. rewrite Hv, He. reflexivity.
Qed.

Lemma postFile_fetchFailed url read err :
  atQuota cfg task = false ->
  decodeJSONBody r = (inr url, read) ->
  isValidURL url = true ->
  hasAllowedExtension url = true ->
  downloadFile url net = inl err ->
  postFile cfg r net task
  = mkRun (inl (fetchFailedReply task)) (addError (downloadDiagnostic url err) task)
          [OpLock; OpReadBody; OpHttpGet url; OpUnlock].
Proof.
  unfold atQuota. intros H Hd Hv He Hf.
  destruct (decodeJSONBody_inr _ _ Hd) as (-> & _ & _).
  unfold_handler. rewrite H, Hd. cbn. rewrite Hv, He. cbn. rewrite Hf. reflexivity.
Qed.

Lemma postFile_stored url read data filename :
  atQuota cfg task = false ->
  decodeJSONBody r = (inr url, read) ->
  isValidURL url = true ->
  hasAllowedExtension url = true ->
  downloadFile url net = inr (data, filename) ->
  let task1 := appendFile (mkFile url filename data) task in
  postFile cfg r net task
  = if reachesQuota cfg task1
    then mkRun (inr (storedReply (setStatus "processing" task1)))
               (setStatus "processing" task1)
               [OpLock; OpReadBody; OpHttpGet url; OpGo; OpUnlock]
    else mkRun (inr (storedReply task1)) task1
               [OpLock; OpReadBody; OpHttpGet url; OpUnlock].
Proof.
  unfold atQuota, reachesQuota. intros H Hd Hv He Hf.
  destruct (decodeJSONBody_inr _ _ Hd) as (-> & _ & _).
  unfold_handler. rewrite H, Hd. cbn. rewrite Hv, He. cbn. rewrite Hf. cbn.
  destruct (_ =? _)%Z; reflexivity.
Qed.

End PostCasesFacts.

Lemma postFile_effect cfg r net task : PostEffect cfg task (postFile cfg r net task).
Proof.
  destruct (atQuota cfg task) eqn:Hq.
  { rewrite postFile_atQuota by done. by apply PostRejected. }
  destruct (decodeJSONBody r) as [[err|url] read] eqn:Hd.
  { erewrite postFile_badBody by done. apply PostRejected; [done|]. by destruct read. }
  destruct (isValidURL url) eqn:Hv.
  2:{ erewrite postFile_badURL by done. by apply PostRejected. }
  destruct (hasAllowedExtension url) eqn:He.
  2:{ erewrite postFile_badType by done. by apply PostRejected. }
  destruct (downloadFile url net) as [err|[data filename]] eqn:Hf.
  { erewrite postFile_fetchFailed by done. by eapply PostFetchFailed. }
  erewrite postFile_stored by done. cbv zeta.
  destruct (reachesQuota _ _) eqn:Hr.
  - eapply PostStoredLast; done.
  - eapply PostStored; done.
Qed.

(** ** Paths of archives *)

Lemma filepath_Clean_nonempty path : filepath_Clean path <> "".
Proof.
  unfold filepath_Clean. destruct path as [|c path]; [done|].
  destruct (isSep c); [done|].
  by destruct (strings_Join _ _).
Qed.

Lemma zipPathOf_nonempty cfg task : zipPathOf cfg task <> "".
Proof.
  unfold zipPathOf. cbn [filepath_Join].
  destruct (String.eqb (TempFolder cfg) ""); [|apply filepath_Clean_nonempty].
  destruct (String.eqb (ID task +:+ ".zip") "") eqn:E; [|apply filepath_Clean_nonempty].
  apply String.eqb_eq in E. by destruct (ID task).
Qed.

(** ** The invariant is kept by every step *)

Section InvariantFacts.
Variable cfg : Config.

Lemma Inv_init : Inv cfg init.
Proof. split; cbn; try done. apply NoDup_nil_2. Qed.

Lemma targets_insert (gs : list Goroutine) g gr gr' :
  gs !! g = Some gr -> target gr' = target gr ->
  target <$> <[g := gr']> gs = target <$> gs.
Proof.
  intros Hg Ht. rewrite list_fmap_insert, Ht.
  apply list_insert_id. by rewrite list_lookup_fmap, Hg.
Qed.

Lemma target_unique (gs : list Goroutine) g1 g2 gr1 gr2 :
  NoDup (target <$> gs) ->
  gs !! g1 = Some gr1 -> gs !! g2 = Some gr2 -> target gr1 = target gr2 -> g1 = g2.
Proof.
  intros Hnd H1 H2 Heq.
  eapply NoDup_lookup; [exact Hnd| |]; rewrite list_lookup_fmap.
  - by rewrite H1.
  - rewrite H2. cbn. by rewrite Heq.
Qed.

Lemma targeted_elem (gs : list Goroutine) g gr :
  gs !! g = Some gr -> target gr ∈ target <$> gs.
Proof.
  intros H. apply list_elem_of_lookup. exists g. by rewrite list_lookup_fmap, H.
Qed.

(** A goroutine moves on and rewrites its task, keeping the files. *)
Lemma Inv_build st g gr task task' c' z' :
  Inv cfg st ->
  goroutines st !! g = Some gr ->
  heap st !! target gr = Some task ->
  Files task' = Files task ->
  (pcOK cfg (pc gr) task -> pcOK cfg c' task') ->
  Inv cfg (setGoroutines (<[g := mkGoroutine (target gr) c' z']> (goroutines st))
                     (setHeap (<[target gr := task']> (heap st)) st)).
Proof.
  intros [Hnd Ht Htg Hreg] Hg Hh Hf Hpc.
  assert (Hlt : target gr < length (heap st)) by eauto.
  split; cbn.
  - by erewrite targets_insert.
  - intros p t Hp. unfold taskOK. erewrite targets_insert by done.
    destruct (decide (p = target gr)) as [->|Hne].
    + rewrite list_lookup_insert_eq in Hp by done. injection Hp as <-.
      split.
      { intros Hnot. exfalso. apply Hnot. by eapply targeted_elem. }
      intros g2 gr2 Hg2 Htgt. rewrite Hf.
      destruct (Ht _ _ Hh) as [_ Hgo].
      apply list_lookup_insert_Some in Hg2 as [(-> & <- & _)|(Hne & Hg2)].
      * cbn. destruct (Hgo _ _ Hg eq_refl). auto.
      * exfalso. apply Hne. by eapply target_unique.
    + rewrite list_lookup_insert_ne in Hp by done.
      destruct (Ht _ _ Hp) as [Hidle Hgo]. split; [done|].
      intros g2 gr2 Hg2 Htgt.
      apply list_lookup_insert_Some in Hg2 as [(-> & <- & _)|(_ & Hg2)]; [done|eauto].
  - intros g2 gr2 Hg2. rewrite length_insert.
    apply list_lookup_insert_Some in Hg2 as [(-> & <- & _)|(_ & Hg2)]; [done|eauto].
  - intros id p Hid. rewrite length_insert. eauto.
Qed.

(** A handler rewrites a task no goroutine works on. *)
Lemma Inv_idle st p task task' :
  Inv cfg st ->
  heap st !! p = Some task ->
  p ∉ target <$> goroutines st ->
  Status task' = Status task -> ZipPath task' = ZipPath task ->
  Inv cfg (setHeap (<[p := task']> (heap st)) st).
Proof.
  intros [Hnd Ht Htg Hreg] Hh Hnot Hs Hz.
  assert (Hlt : p < length (heap st)) by (by eapply lookup_lt_Some).
  split; cbn; try done.
  - intros q t Hq. destruct (decide (q = p)) as [->|Hne].
    + rewrite list_lookup_insert_eq in Hq by done. injection Hq as <-.
      destruct (Ht _ _ Hh) as [Hidle _]. split.
      * rewrite Hs, Hz. auto.
      * intros g gr Hg Htgt. exfalso. apply Hnot. rewrite <- Htgt.
        by eapply targeted_elem.
    + rewrite list_lookup_insert_ne in Hq by done. eauto.
  - intros g gr Hg. rewrite length_insert. eauto.
  - intros id q Hid. rewrite length_insert. eauto.
Qed.

(** A task below the quota has no goroutine. *)
Lemma below_quota_idle st p task :
  Inv cfg st -> heap st !! p = Some task -> atQuota cfg task = false ->
  p ∉ target <$> goroutines st.
Proof.
  intros [Hnd Ht Htg Hreg] Hh Hq Hin.
  apply list_elem_of_lookup in Hin as [g Hg].
  rewrite list_lookup_fmap in Hg.
  destruct (goroutines st !! g) as [gr|] eqn:Hgr; [|done].
  injection Hg as Hg.
  destruct (Ht _ _ Hh) as [_ Hgo]. destruct (Hgo _ _ Hgr Hg) as [Hlen _].
  unfold atQuota in Hq. lia.
Qed.

End InvariantFacts.

Section PreservationFacts.
Variable cfg : Config.

Lemma setHeap_id st p task :
  heap st !! p = Some task -> setHeap (<[p := task]> (heap st)) st = st.
Proof. intros H. rewrite list_insert_id by done. by destruct st. Qed.

(** The handler that reaches the quota starts the goroutine of its task. *)
Lemma Inv_dispatch st p task task' :
  Inv cfg st ->
  heap st !! p = Some task ->
  p ∉ target <$> goroutines st ->
  Status task' = "processing" -> ZipPath task' = ZipPath task ->
  Z.of_nat (length (Files task')) = MaxFilesPerTask cfg ->
  Inv cfg (setGoroutines (goroutines st ++ [mkGoroutine p PcCreate []])
                         (setHeap (<[p := task']> (heap st)) st)).
Proof.
  intros [Hnd Ht Htg Hreg] Hh Hnot Hs Hz Hlen.
  assert (Hlt : p < length (heap st)) by (by eapply lookup_lt_Some).
  split; cbn.
  - rewrite fmap_app. apply NoDup_app. split; [done|]. split.
    + intros x Hx Hx'. cbn in Hx'. apply list_elem_of_singleton in Hx'. by subst.
    + cbn. apply NoDup_singleton.
  - intros q t Hq. unfold taskOK. rewrite fmap_app. cbn.
    destruct (decide (q = p)) as [->|Hne].
    + rewrite list_lookup_insert_eq in Hq by done. injection Hq as <-.
      split.
      { intros Hn. exfalso. apply Hn. apply elem_of_app. right. by apply list_elem_of_singleton. }
      intros g gr Hg Htgt.
      apply lookup_app_Some in Hg as [Hg|[_ Hg]].
      * exfalso. apply Hnot. rewrite <- Htgt. by eapply targeted_elem.
      * apply list_lookup_singleton_Some in Hg as [_ <-]. cbn.
        destruct (Ht _ _ Hh) as [Hidle _]. destruct (Hidle Hnot) as [_ Hzp].
        rewrite Hz. auto.
    + rewrite list_lookup_insert_ne in Hq by done.
      destruct (Ht _ _ Hq) as [Hidle Hgo]. split.
      * intros Hn. apply Hidle. intros Hin. apply Hn. apply elem_of_app. by left.
      * intros g gr Hg Htgt.
        apply lookup_app_Some in Hg as [Hg|[_ Hg]]; [eauto|].
        apply list_lookup_singleton_Some in Hg as [_ <-]. cbn in Htgt. by subst.
  - intros g gr Hg. rewrite length_insert.
    apply lookup_app_Some in Hg as [Hg|[_ Hg]]; [eauto|].
    apply list_lookup_singleton_Some in Hg as [_ <-]. done.
  - intros id q Hid. rewrite length_insert. eauto.
Qed.

Lemma lookupTask_Some st taskID p task :
  lookupTask st taskID = Some (p, task) -> heap st !! p = Some task.
Proof.
  unfold lookupTask. destruct (tasks st !! taskID) as [q|]; [|done].
  destruct (heap st !! q) eqn:E; [|done]. by intros [= <- <-].
Qed.

Lemma Inv_handleTasks st r idNow createdNow :
  Inv cfg st -> Inv cfg (fst (handleTasks cfg st r idNow createdNow)).
Proof.
  intros HI. unfold handleTasks.
  destruct (negb _); [done|]. destruct (_ <? _)%Z; [|done].
  destruct HI as [Hnd Ht Htg Hreg]. split; cbn.
  - done.
  - intros p task Hp. apply lookup_app_Some in Hp as [Hp|[Hge Hp]]; [eauto|].
    apply list_lookup_singleton_Some in Hp as [Hp <-].
    split; [done|]. intros g gr Hg Htgt. apply Htg in Hg. lia.
  - intros g gr Hg. rewrite length_app. apply Htg in Hg. lia.
  - intros id p Hid. rewrite length_app. cbn.
    apply lookup_insert_Some in Hid as [[_ <-]|[_ Hid]]; [lia|].
    apply Hreg in Hid. lia.
Qed.

Lemma Inv_postFile st p task r net :
  Inv cfg st ->
  heap st !! p = Some task ->
  let run := postFile cfg r net task in
  let st' := setHeap (<[p := after run]> (heap st)) st in
  Inv cfg (if dispatched run
           then setGoroutines (goroutines st' ++ [mkGoroutine p PcCreate []]) st'
           else st').
Proof.
  intros HI Hh. cbv zeta.
  destruct (postFile_effect cfg r net task) as [Ha Hd|e Hq Ha Hd|f Hq Hr Ha Hd|f Hq Hr Ha Hd];
    rewrite Ha, Hd.
  - by rewrite setHeap_id.
  - eapply Inv_idle; eauto using below_quota_idle.
  - eapply Inv_idle; eauto using below_quota_idle.
  - change (goroutines (setHeap ?h st)) with (goroutines st).
    eapply Inv_dispatch; eauto using below_quota_idle.
    unfold reachesQuota in Hr. apply Z.eqb_eq in Hr. exact Hr.
Qed.

Lemma Inv_handleTaskFiles st r net :
  Inv cfg st -> Inv cfg (fst (fst (handleTaskFiles cfg st r net))).
Proof.
  intros HI. unfold handleTaskFiles.
  destruct (_ <? _)%nat; [done|].
  destruct (lookupTask st _) as [[p task]|] eqn:Hl; [|done].
  apply lookupTask_Some in Hl.
  destruct (String.eqb (Method r) "POST"); cbn.
  - by apply Inv_postFile.
  - by destruct (String.eqb (Method r) "GET").
Qed.

Lemma Inv_buildStep st g b :
  Inv cfg st -> Inv cfg (buildStep cfg st g b).
Proof.
  intros HI. unfold buildStep.
  destruct (goroutines st !! g) as [gr|] eqn:Hg; [|done].
  destruct (heap st !! target gr) as [task|] eqn:Hh; [|done].
  destruct b as [[err|]|res| |]; destruct (pc gr) as [|rest| |] eqn:Hpc;
    try done; try (by destruct rest).
  - eapply Inv_build; eauto. rewrite Hpc. cbn. intros [_ Hz]. by left.
  - eapply Inv_build; eauto. by rewrite Hpc.
  - destruct rest as [|file rest]; [done|].
    destruct (writeEntry file res task (zip gr)) as [task' zip'] eqn:Hw.
    eapply Inv_build; eauto.
    + unfold writeEntry in Hw. destruct res; injection Hw as <- <-; done.
    + rewrite Hpc. unfold writeEntry in Hw. destruct res; injection Hw as <- <-; done.
  - destruct rest as [|file rest]; [|done].
    eapply Inv_build; eauto. rewrite Hpc. cbn. intros _. right. done.
  - destruct (taskSem st) as [|n] eqn:Hs; [done|].
    pose proof (Inv_build cfg st g gr task task PcExited (zip gr) HI Hg Hh eq_refl) as HB.
    rewrite Hpc in HB. specialize (HB (fun H => H)).
    rewrite (list_insert_id (heap st)) in HB by done.
    destruct HB as [Hnd Ht Htg Hreg]. split; done.
Qed.

Lemma Inv_step st ev : Inv cfg st -> Inv cfg (step cfg st ev).
Proof.
  destruct ev; cbn; auto using Inv_handleTasks, Inv_handleTaskFiles, Inv_buildStep.
Qed.

Lemma Inv_fold evs st : Inv cfg st -> Inv cfg (fold_left (step cfg) evs st).
Proof.
  revert st. induction evs as [|ev evs IH]; cbn; auto using Inv_step.
Qed.

Lemma Inv_run evs : Inv cfg (run cfg evs).
Proof. apply Inv_fold, Inv_init. Qed.

End PreservationFacts.

(** ** One step, seen from one task *)

Section StepsFacts.
Variable cfg : Config.

Lemma dispatches_same_targets st st' p :
  target <$> goroutines st' = target <$> goroutines st ->
  dispatches st' p = dispatches st p.
Proof. unfold dispatches. by intros ->. Qed.

Lemma dispatches_spawn st h q p :
  dispatches (setGoroutines (goroutines st ++ [mkGoroutine q PcCreate []]) (setHeap h st)) p
  = dispatches st p + (if decide (q = p) then 1 else 0).
Proof.
  unfold dispatches. cbn [goroutines setGoroutines].
  rewrite fmap_app, filter_app, length_app. f_equal.
  change (target <$> [mkGoroutine q PcCreate []]) with [q].
  rewrite filter_cons, filter_nil. by destruct (decide (q = p)).
Qed.

Lemma insert_lookup_cases (h : list Task) q task' p task :
  h !! p = Some task ->
  (p = q /\ <[q := task']> h !! p = Some task')
  \/ (p <> q /\ <[q := task']> h !! p = Some task).
Proof.
  intros Hp. destruct (decide (p = q)) as [->|Hne].
  - left. split; [done|]. apply list_lookup_insert_eq. by eapply lookup_lt_Some.
  - right. split; [done|]. by rewrite list_lookup_insert_ne.
Qed.

Lemma buildStep_change st g b p task :
  Inv cfg st -> heap st !! p = Some task ->
  exists task', heap (buildStep cfg st g b) !! p = Some task'
    /\ TaskChange cfg task task' 0
    /\ target <$> goroutines (buildStep cfg st g b) = target <$> goroutines st.
Proof.
  intros HI Hp. unfold buildStep.
  assert (Hstay : exists task', heap st !! p = Some task' /\ TaskChange cfg task task' 0
                   /\ target <$> goroutines st = target <$> goroutines st).
  { exists task. eauto using TaskChange. }
  destruct (goroutines st !! g) as [gr|] eqn:Hg; [|done].
  destruct (heap st !! target gr) as [task0|] eqn:Hh; [|done].
  assert (Hok : pcOK cfg (pc gr) task0).
  { destruct HI as [_ Ht _ _]. destruct (Ht _ _ Hh) as [_ Hgo].
    by destruct (Hgo _ _ Hg eq_refl). }
  assert (Hstore : forall task1 gr1, target gr1 = target gr ->
            TaskChange cfg task0 task1 0 ->
            exists task',
              heap (setGoroutines (<[g := gr1]> (goroutines st))
                      (setHeap (<[target gr := task1]> (heap st)) st)) !! p = Some task'
              /\ TaskChange cfg task task' 0
              /\ target <$> goroutines (setGoroutines (<[g := gr1]> (goroutines st))
                      (setHeap (<[target gr := task1]> (heap st)) st))
                 = target <$> goroutines st).
  { intros task1 gr1 Ht1 Hc. cbn.
    destruct (insert_lookup_cases (heap st) (target gr) task1 p task Hp)
      as [[-> Hl]|[Hne Hl]]; rewrite Hl.
    - exists task1. rewrite Hp in Hh. injection Hh as ->.
      split; [done|]. split; [done|]. by eapply targets_insert.
    - exists task. split; [done|]. split; [constructor|]. by eapply targets_insert. }
  destruct b as [[err|]|res| |]; destruct (pc gr) as [|rest| |] eqn:Hpc;
    try done; try (by destruct rest).
  - apply Hstore; [done|]. destruct Hok. by constructor.
  - apply Hstore; [done|constructor].
  - destruct rest as [|file rest]; [done|].
    destruct (writeEntry file res task0 (zip gr)) as [task1 zip1] eqn:Hw.
    apply Hstore; [done|].
    unfold writeEntry in Hw. destruct res; injection Hw as <- <-; constructor.
  - destruct rest as [|file rest]; [|done].
    apply Hstore; [done|]. destruct Hok. by constructor.
  - destruct (taskSem st); [done|]. cbn. exists task.
    split; [done|]. split; [constructor|]. by eapply targets_insert.
Qed.

(** One step changes a task in one of the ways of [TaskChange], and starts
    the number of builds that [TaskChange] tells. *)
Lemma step_change st ev p task :
  Inv cfg st -> heap st !! p = Some task ->
  exists task' d,
    heap (step cfg st ev) !! p = Some task'
    /\ TaskChange cfg task task' d
    /\ dispatches (step cfg st ev) p = dispatches st p + d.
Proof.
  intros HI Hp. destruct ev as [r idNow createdNow|r net|g b]; cbn [step].
  - exists task, 0. unfold handleTasks.
    destruct (negb _); [by eauto using TaskChange|].
    destruct (_ <? _)%Z; [|by eauto using TaskChange].
    cbn. rewrite lookup_app_l by (by eapply lookup_lt_Some).
    split; [done|]. split; [constructor|]. unfold dispatches. cbn [goroutines setHeap]. lia.
  - unfold handleTaskFiles.
    destruct (_ <? _)%nat; [exists task, 0; by eauto using TaskChange|].
    destruct (lookupTask st _) as [[q task0]|] eqn:Hl;
      [|exists task, 0; by eauto using TaskChange].
    apply lookupTask_Some in Hl.
    destruct (String.eqb (Method r) "POST"); cbn;
      [|destruct (String.eqb (Method r) "GET"); exists task, 0; by eauto using TaskChange].
    destruct (insert_lookup_cases (heap st) q (after (postFile cfg r net task0)) p task Hp)
      as [[-> Hi]|[Hne Hi]].
    + rewrite Hp in Hl. injection Hl as <-.
      destruct (postFile_effect cfg r net task) as [Ha Hd|e Hq Ha Hd|f Hq Hr Ha Hd|f Hq Hr Ha Hd];
        rewrite Hd; rewrite Ha in *.
      * exists task, 0. cbn [heap setHeap setGoroutines]. rewrite Hi.
        split; [done|]. split; [constructor|]. unfold dispatches. cbn [goroutines setHeap]. lia.
      * eexists _, 0. cbn [heap setHeap setGoroutines]. rewrite Hi.
        split; [done|]. split; [constructor|]. unfold dispatches. cbn [goroutines setHeap]. lia.
      * eexists _, 0. cbn [heap setHeap setGoroutines]. rewrite Hi.
        split; [done|]. split; [by constructor|]. unfold dispatches. cbn [goroutines setHeap]. lia.
      * eexists _, 1.
        change (goroutines (setHeap ?h st)) with (goroutines st).
        rewrite dispatches_spawn. cbn [heap setHeap setGoroutines]. rewrite Hi.
        split; [done|]. split; [by constructor|]. by rewrite decide_True.
    + exists task, 0. destruct (dispatched _).
      * change (goroutines (setHeap ?h st)) with (goroutines st).
        rewrite dispatches_spawn. cbn [heap setHeap setGoroutines]. rewrite Hi.
        split; [done|]. split; [constructor|]. rewrite decide_False by done. lia.
      * cbn [heap setHeap setGoroutines]. rewrite Hi. split; [done|]. split; [constructor|].
        unfold dispatches. cbn [goroutines setHeap]. lia.
  - destruct (buildStep_change st g b p task HI Hp) as (task' & Hh & Hc & Ht).
    exists task', 0. split; [done|]. split; [done|].
    rewrite (dispatches_same_targets _ _ _ Ht). lia.
Qed.

(** A task that appears in a step is new: no file, no diagnostic. *)
Lemma step_new st ev p task' :
  heap st !! p = None -> heap (step cfg st ev) !! p = Some task' ->
  Files task' = [] /\ Errors task' = [] /\ Status task' = "created".
Proof.
  intros Hn Hp.
  assert (Hlen : length (heap (step cfg st ev)) = length (heap st) -> False).
  { intros Hlen. apply lookup_lt_Some in Hp. apply lookup_ge_None in Hn. lia. }
  destruct ev as [r idNow createdNow|r net|g b]; cbn [step] in *.
  - unfold handleTasks in *.
    destruct (negb _); [by destruct Hlen|].
    destruct (_ <? _)%Z; [|by destruct Hlen].
    cbn in Hp. apply lookup_app_Some in Hp as [Hp|[_ Hp]]; [congruence|].
    by apply list_lookup_singleton_Some in Hp as [_ <-].
  - exfalso. apply Hlen. unfold handleTaskFiles.
    destruct (_ <? _)%nat; [done|].
    destruct (lookupTask st _) as [[q task0]|]; [|done].
    destruct (String.eqb (Method r) "POST"); cbn.
    + destruct (dispatched _); cbn; by rewrite length_insert.
    + by destruct (String.eqb (Method r) "GET").
  - exfalso. apply Hlen. unfold buildStep.
    destruct (goroutines st !! g) as [gr|]; [|done].
    destruct (heap st !! target gr) as [task0|]; [|done].
    destruct b as [[err|]|res| |]; destruct (pc gr) as [|rest| |];
      try done; try (by destruct rest); cbn; try (by rewrite length_insert).
    + destruct rest as [|file rest]; [done|].
      destruct (writeEntry _ _ _ _). cbn. by rewrite length_insert.
    + destruct rest as [|file rest]; [|done]. cbn. by rewrite length_insert.
    + by destruct (taskSem st).
Qed.

Lemma run_snoc evs ev : run cfg (evs ++ [ev]) = step cfg (run cfg evs) ev.
Proof. unfold run. by rewrite fold_left_app. Qed.

End StepsFacts.

(** ** Counting files, builds and admission slots *)

Lemma filter_eq_absent (l : list nat) p : p ∉ l -> filter (fun q => q = p) l = [].
Proof.
  induction l as [|x l IH]; [done|]. intros Hn.
  apply not_elem_of_cons in Hn as [Hne Hn].
  rewrite filter_cons, decide_False by done. auto.
Qed.

Lemma NoDup_filter_eq_length (l : list nat) p :
  NoDup l -> length (filter (fun q => q = p) l) <= 1.
Proof.
  induction 1 as [|x l Hx Hnd IH]; [cbn; lia|].
  rewrite filter_cons. destruct (decide (x = p)) as [->|]; [|done].
  rewrite filter_eq_absent by done. cbn. lia.
Qed.

Lemma filter_insert_length {A} (P : A -> Prop) `{forall x, Decision (P x)}
      (l : list A) i x y :
  l !! i = Some y ->
  length (filter P (<[i := x]> l)) + (if decide (P y) then 1 else 0)
  = length (filter P l) + (if decide (P x) then 1 else 0).
Proof.
  revert i. induction l as [|a l IH]; intros i Hi; [done|].
  destruct i as [|i]; cbn in Hi.
  - injection Hi as ->. change (<[0 := x]> (y :: l)) with (x :: l).
    rewrite !filter_cons.
    destruct (decide (P x)), (decide (P y)); cbn [length]; lia.
  - change (<[S i := x]> (a :: l)) with (a :: <[i := x]> l).
    rewrite !filter_cons. specialize (IH i Hi).
    destruct (decide (P a)); cbn [length]; lia.
Qed.

Section CountingFacts.
Variable cfg : Config.

Lemma files_bounded evs :
  (0 <= MaxFilesPerTask cfg)%Z ->
  forall p task, heap (run cfg evs) !! p = Some task ->
  (Z.of_nat (length (Files task)) <= MaxFilesPerTask cfg)%Z.
Proof.
  intros Hq. induction evs as [|ev evs IH] using rev_ind; intros p task Hp; [done|].
  rewrite run_snoc in Hp.
  destruct (heap (run cfg evs) !! p) as [task0|] eqn:H0.
  - destruct (step_change cfg _ ev p task0 (Inv_run cfg evs) H0) as (task' & d & Hh & Hc & _).
    rewrite Hp in Hh. injection Hh as <-. specialize (IH _ _ H0).
    destruct Hc as [|e|f Ha Hr|f Ha Hr|e|]; try done;
      unfold atQuota in Ha; cbn; rewrite length_app; cbn; lia.
  - destruct (step_new cfg _ ev p task H0 Hp) as (-> & _). cbn. lia.
Qed.

Lemma dispatches_le_1 evs p : dispatches (run cfg evs) p <= 1.
Proof. apply NoDup_filter_eq_length, (inv_nodup cfg), Inv_run. Qed.

Lemma exited_insert st g gr c z h :
  goroutines st !! g = Some gr -> isExited (pc gr) = false ->
  exited (setGoroutines (<[g := mkGoroutine (target gr) c z]> (goroutines st)) (setHeap h st))
  = exited st + (if isExited c then 1 else 0).
Proof.
  intros Hg Hpc. unfold exited. cbn [goroutines setGoroutines].
  pose proof (filter_insert_length (fun gr => isExited (pc gr)) (goroutines st) g
                (mkGoroutine (target gr) c z) gr Hg) as HF.
  cbv beta in HF. cbn [pc] in HF. rewrite Hpc in HF.
  destruct (isExited c); repeat case_decide; cbn in *; try done; lia.
Qed.

Lemma exited_spawn st h q :
  exited (setGoroutines (goroutines st ++ [mkGoroutine q PcCreate []]) (setHeap h st))
  = exited st.
Proof.
  unfold exited. cbn [goroutines setGoroutines].
  rewrite filter_app, length_app, filter_cons, filter_nil.
  case_decide; [done|]. cbn [length]. lia.
Qed.

Lemma SemInv_step st ev : SemInv cfg st -> SemInv cfg (step cfg st ev).
Proof.
  intros [Hb Hc Ha Hr]. destruct ev as [r idNow createdNow|r net|g b]; cbn [step].
  - unfold handleTasks. destruct (negb _); [done|].
    destruct (_ <? _)%Z eqn:Hlt; [|done].
    split; cbn; rewrite ?length_app; cbn; try lia. done.
  - unfold handleTaskFiles. destruct (_ <? _)%nat; [done|].
    destruct (lookupTask st _) as [[q task0]|]; [|done].
    destruct (String.eqb (Method r) "POST"); cbn [fst];
      [|by destruct (String.eqb (Method r) "GET")].
    destruct (dispatched _); split;
      cbn [acquired released taskSem heap setHeap setGoroutines];
      rewrite ?length_insert; try done.
    change (goroutines (setHeap ?h st)) with (goroutines st).
    by rewrite exited_spawn.
  - unfold buildStep.
    destruct (goroutines st !! g) as [gr|] eqn:Hg; [|done].
    destruct (heap st !! target gr) as [task0|] eqn:Hh; [|done].
    destruct b as [[err|]|res| |]; destruct (pc gr) as [|rest| |] eqn:Hpc;
      try done; try (by destruct rest).
    + split; cbn [acquired released taskSem heap setHeap setGoroutines];
        rewrite ?length_insert; try done.
      rewrite exited_insert by (by rewrite ?Hpc). cbn. lia.
    + split; cbn [acquired released taskSem heap setHeap setGoroutines];
        rewrite ?length_insert; try done.
      rewrite exited_insert by (by rewrite ?Hpc). cbn. lia.
    + destruct rest as [|file rest]; [done|].
      destruct (writeEntry file res task0 (zip gr)) as [task1 zip1].
      split; cbn [acquired released taskSem heap setHeap setGoroutines];
        rewrite ?length_insert; try done.
      rewrite exited_insert by (by rewrite ?Hpc). cbn. lia.
    + destruct rest as [|file rest]; [|done].
      split; cbn [acquired released taskSem heap setHeap setGoroutines];
        rewrite ?length_insert; try done.
      rewrite exited_insert by (by rewrite ?Hpc). cbn. lia.
    + destruct (taskSem st) as [|n] eqn:Hs; [split; rewrite ?Hs; done|].
      pose proof (exited_insert st g gr PcExited (zip gr) (heap st) Hg) as HE.
      rewrite Hpc in HE. specialize (HE eq_refl).
      split; cbn [acquired released taskSem heap]; try lia.
      unfold exited in *. cbn [goroutines setGoroutines isExited] in *. lia.
Qed.

Lemma SemInv_run evs : (0 <= MaxActiveTasks cfg)%Z -> SemInv cfg (run cfg evs).
Proof.
  intros Hcap. induction evs as [|ev evs IH] using rev_ind.
  - split; cbn; try done; lia.
  - rewrite run_snoc. by apply SemInv_step.
Qed.

End CountingFacts.

Section ReleaseNeverBlocksFacts.
Variable cfg : Config.

Lemma goroutines_le_tasks st : Inv cfg st -> length (goroutines st) <= length (heap st).
Proof.
  intros [Hnd _ Htg _].
  assert (Hsub : target <$> goroutines st ⊆+ seq 0 (length (heap st))).
  { apply NoDup_submseteq; [done|].
    intros x Hx. apply list_elem_of_lookup in Hx as [g Hg].
    rewrite list_lookup_fmap in Hg.
    destruct (goroutines st !! g) as [gr|] eqn:Hgr; [|done]. injection Hg as <-.
    apply elem_of_seq. apply Htg in Hgr. lia. }
  apply submseteq_length in Hsub.
  by rewrite length_fmap, length_seq in Hsub.
Qed.

(** A goroutine that reaches its deferred receive finds the channel
    non-empty: the receive does not block. *)
Lemma release_enabled st g gr :
  Inv cfg st -> SemInv cfg st ->
  goroutines st !! g = Some gr -> isExited (pc gr) = false ->
  0 < taskSem st.
Proof.
  intros HI [Hb _ Ha Hr] Hg Hpc.
  pose proof (goroutines_le_tasks st HI) as Hle.
  assert (exited st < length (goroutines st)).
  { unfold exited. eapply (length_filter_lt _ _ gr).
    - by eapply list_elem_of_lookup_2.
    - cbv beta. rewrite Hpc. exact id. }
  lia.
Qed.

End ReleaseNeverBlocksFacts.

(** ** States of a task *)

Lemma zipPath_status cfg st p task :
  Inv cfg st -> heap st !! p = Some task ->
  (Status task = "created" /\ ZipPath task = "")
  \/ (Status task = "processing" /\ ZipPath task = "")
  \/ (Status task = "failed" /\ ZipPath task = "")
  \/ (Status task = "completed" /\ ZipPath task = zipPathOf cfg task).
Proof.
  intros [Hnd Ht Htg Hreg] Hp. destruct (Ht _ _ Hp) as [Hidle Hgo].
  destruct (decide (p ∈ target <$> goroutines st)) as [Hin|Hnot]; [|by left; auto].
  apply list_elem_of_lookup in Hin as [g Hg]. rewrite list_lookup_fmap in Hg.
  destruct (goroutines st !! g) as [gr|] eqn:Hgr; [|done]. injection Hg as Hg.
  destruct (Hgo _ _ Hgr Hg) as [_ Hpc].
  destruct (pc gr); cbn in Hpc; tauto.
Qed.

(** ** The operations of a POST *)

Section PostTraceFacts.
Variable cfg : Config.
Variables (r : Request) (net : HttpGetResult) (task : Task).

(** The traces a POST can leave. *)
Lemma postFile_ops :
  let tr := ops (postFile cfg r net task) in
  tr = [OpLock; OpUnlock]
  \/ tr = [OpLock; OpReadBody; OpUnlock]
  \/ exists url, decodeJSONBody r = (inr url, true)
       /\ atQuota cfg task = false
       /\ isValidURL url = true /\ hasAllowedExtension url = true
       /\ (tr = [OpLock; OpReadBody; OpHttpGet url; OpUnlock]
           \/ tr = [OpLock; OpReadBody; OpHttpGet url; OpGo; OpUnlock]).
Proof.
  cbv zeta.
  destruct (atQuota cfg task) eqn:Hq.
  { rewrite postFile_atQuota by done. by left. }
  destruct (decodeJSONBody r) as [[err|url] read] eqn:Hd.
  { erewrite postFile_badBody by done. destruct read; cbn; auto. }
  destruct (decodeJSONBody_inr _ _ _ Hd) as (-> & _ & _).
  destruct (isValidURL url) eqn:Hv.
  2:{ erewrite postFile_badURL by done. cbn. auto. }
  destruct (hasAllowedExtension url) eqn:He.
  2:{ erewrite postFile_badType by done. cbn. auto. }
  right. right. exists url. do 4 (split; [done|]).
  destruct (downloadFile url net) as [err|[data filename]] eqn:Hf.
  { erewrite postFile_fetchFailed by done. cbn. auto. }
  erewrite postFile_stored by done. cbv zeta.
  destruct (reachesQuota _ _); cbn; auto.
Qed.

(** A POST that fetched a URL had passed every check with it. *)
Lemma postFile_fetches url :
  In (OpHttpGet url) (ops (postFile cfg r net task)) ->
  atQuota cfg task = false /\ decodeJSONBody r = (inr url, true)
  /\ isValidURL url = true /\ hasAllowedExtension url = true.
Proof.
  intros Hin.
  destruct postFile_ops as [Ht|[Ht|(u & Hd & Hq & Hv & He & [Ht|Ht])]];
    rewrite Ht in Hin; cbn in Hin;
    repeat (destruct Hin as [Hin|Hin]; try discriminate Hin); try done;
    injection Hin as <-; done.
Qed.

End PostTraceFacts.

(** ** The loop of [createZipArchive] *)

Lemma writeEntries_spec files i zipIO task zip :
  let '(task', zip') := writeEntries files i zipIO task zip in
  task' = mkTask (ID task) (Status task) (Files task)
                 (Errors task ++ entryDiagnostics files i zipIO)
                 (ZipPath task) (CreatedAt task)
  /\ zip' = zip ++ entriesWritten files i zipIO.
Proof.
  revert i task zip. induction files as [|file files IH]; intros i task zip.
  - cbn. rewrite !app_nil_r. by destruct task.
  - cbn [writeEntries entryDiagnostics entriesWritten].
    destruct (writeEntry file (zipIO i) task zip) as [task1 zip1] eqn:Hw.
    specialize (IH (S i) task1 zip1).
    destruct (writeEntries files (S i) zipIO task1 zip1) as [task' zip'].
    destruct IH as [-> ->].
    unfold writeEntry in Hw.
    destruct (zipIO i); injection Hw as <- <-; cbn; rewrite <- ?app_assoc; done.
Qed.

Lemma entries_count files i zipIO :
  length (entryDiagnostics files i zipIO) + length (entriesWritten files i zipIO)
  = length files.
Proof.
  revert i. induction files as [|file files IH]; intros i; [done|].
  cbn [entryDiagnostics entriesWritten]. rewrite !length_app. specialize (IH (S i)).
  destruct (zipIO i); cbn; lia.
Qed.

(** ** The goroutine of the server runs [createZipArchive] *)

Lemma buildStep_at cfg st g b p c z task :
  goroutines st !! g = Some (mkGoroutine p c z) -> heap st !! p = Some task ->
  buildStep cfg st g b
  = let store task' gr' :=
      setGoroutines (<[g := gr']> (goroutines st)) (setHeap (<[p := task']> (heap st)) st) in
    match c, b with
    | PcCreate, OsCreate (Some err) => store (createFailed err task) (mkGoroutine p PcRelease z)
    | PcCreate, OsCreate None => store task (mkGoroutine p (PcLoop (Files task)) z)
    | PcLoop (file :: rest), ZipEntry res =>
        let '(task', zip') := writeEntry file res task z in
        store task' (mkGoroutine p (PcLoop rest) zip')
    | PcLoop [], Finish => store (markCompleted cfg task) (mkGoroutine p PcRelease z)
    | PcRelease, Release =>
        match taskSem st with
        | O => st
        | S n => mkState (heap st) (tasks st) n
                         (<[g := mkGoroutine p PcExited z]> (goroutines st))
                         (acquired st) (S (released st))
        end
    | _, _ => st
    end.
Proof. intros Hg Hh. unfold buildStep. rewrite Hg. cbn [target pc zip]. by rewrite Hh. Qed.

Lemma loop_refines cfg g p zipIO files :
  forall st i task z,
    goroutines st !! g = Some (mkGoroutine p (PcLoop files) z) ->
    heap st !! p = Some task ->
    let st' := fold_left (step cfg)
                 (List.map (fun i => EvBuild g (ZipEntry (zipIO i))) (seq i (length files))) st in
    heap st' !! p = Some (fst (writeEntries files i zipIO task z))
    /\ goroutines st' !! g
       = Some (mkGoroutine p (PcLoop []) (snd (writeEntries files i zipIO task z))).
Proof.
  induction files as [|file files IH]; intros st i task z Hg Hh; [done|].
  cbn [length seq List.map fold_left step writeEntries].
  rewrite (buildStep_at cfg st g _ p _ z task Hg Hh). cbv zeta.
  destruct (writeEntry file (zipIO i) task z) as [task1 zip1] eqn:Hw.
  apply IH.
  - cbn. apply list_lookup_insert_eq. by eapply lookup_lt_Some.
  - cbn. apply list_lookup_insert_eq. by eapply lookup_lt_Some.
Qed.

(** Run without interruption on the server, a goroutine leaves its task and
    its archive as [createZipArchive] computes them. *)
Lemma build_refines cfg st g p task osCreate zipIO :
  goroutines st !! g = Some (mkGoroutine p PcCreate []) ->
  heap st !! p = Some task ->
  let st' := fold_left (step cfg) (buildSchedule g osCreate zipIO (length (Files task))) st in
  heap st' !! p = Some (fst (createZipArchive cfg osCreate zipIO task))
  /\ goroutines st' !! g
     = Some (mkGoroutine p PcRelease (snd (createZipArchive cfg osCreate zipIO task))).
Proof.
  intros Hg Hh. unfold buildSchedule. cbn [fold_left step].
  rewrite (buildStep_at cfg st g _ p _ [] task Hg Hh). cbv zeta.
  assert (Hp : p < length (heap st)) by (by eapply lookup_lt_Some).
  assert (Hgl : g < length (goroutines st)) by (by eapply lookup_lt_Some).
  destruct osCreate as [err|]; cbn [createZipArchive fold_left fst snd].
  - cbn. by rewrite !list_lookup_insert_eq.
  - rewrite fold_left_app. cbn [fold_left step].
    set (st1 := setGoroutines _ _).
    assert (Hg1 : goroutines st1 !! g = Some (mkGoroutine p (PcLoop (Files task)) [])).
    { subst st1. cbn. by apply list_lookup_insert_eq. }
    assert (Hh1 : heap st1 !! p = Some task).
    { subst st1. cbn. by apply list_lookup_insert_eq. }
    destruct (loop_refines cfg g p zipIO (Files task) st1 0 task [] Hg1 Hh1) as [Hh2 Hg2].
    cbv zeta in Hh2, Hg2.
    rewrite (buildStep_at cfg _ g _ p _ _ _ Hg2 Hh2). cbv zeta.
    destruct (writeEntries (Files task) 0 zipIO task []) as [task2 zip2]. cbn.
    rewrite !list_lookup_insert_eq; [done| |].
    + by eapply lookup_lt_Some.
    + by eapply lookup_lt_Some.
Qed.

(** * The claims *)

(** C1. In every state the server can reach, a task holds at most
    [MaxFilesPerTask] files and at most one archive build was started for it;
    and whatever happens next, a build is started for the task exactly when
    that step adds a file and brings the count to the quota. *)
Theorem C1_quota_and_single_dispatch (cfg : Config) (evs : list Event) (p : nat) (task : Task) :
  (0 <= MaxFilesPerTask cfg)%Z ->
  heap (run cfg evs) !! p = Some task ->
  (Z.of_nat (length (Files task)) <= MaxFilesPerTask cfg)%Z
  /\ dispatches (run cfg evs) p <= 1
  /\ forall ev, exists task',
       heap (run cfg (evs ++ [ev])) !! p = Some task'
       /\ ((dispatches (run cfg (evs ++ [ev])) p = S (dispatches (run cfg evs) p)
            /\ length (Files task') = S (length (Files task))
            /\ Z.of_nat (length (Files task')) = MaxFilesPerTask cfg)
           \/ (dispatches (run cfg (evs ++ [ev])) p = dispatches (run cfg evs) p
               /\ ~ (length (Files task') = S (length (Files task))
                     /\ Z.of_nat (length (Files task')) = MaxFilesPerTask cfg))).
Proof.
  intros Hq Hp. split; [by eapply files_bounded|]. split; [apply dispatches_le_1|].
  intros ev. rewrite run_snoc.
  destruct (step_change cfg _ ev p task (Inv_run cfg evs) Hp) as (task' & d & Hh & Hc & Hd).
  exists task'. split; [done|]. rewrite Hd.
  destruct Hc as [|e|f Ha Hr|f Ha Hr|e|]; cbn [Files addError appendFile setStatus
    createFailed markCompleted setZipPath].
  - right. split; lia.
  - right. split; lia.
  - right. split; [lia|]. unfold reachesQuota in Hr. apply Z.eqb_neq in Hr.
    intros [_ ?]. apply Hr. done.
  - left. unfold reachesQuota in Hr. apply Z.eqb_eq in Hr.
    rewrite length_app. cbn. split; [lia|]. split; [lia|].
    rewrite <- Hr. cbn. by rewrite length_app.
  - right. split; lia.
  - right. split; lia.
Qed.

Lemma C1_witness :
  (0 <= MaxFilesPerTask config)%Z
  /\ heap (run config threeFiles) !! 0 = Some fullTask
  /\ (Z.of_nat (length (Files fullTask)) <= MaxFilesPerTask config)%Z
  /\ dispatches (run config threeFiles) 0 <= 1.
Proof.
  assert (H0 : (0 <= MaxFilesPerTask config)%Z) by (by vm_compute).
  assert (H1 : heap (run config threeFiles) !! 0 = Some fullTask) by (vm_compute; reflexivity).
  split; [exact H0|]. split; [exact H1|].
  pose proof (C1_quota_and_single_dispatch config threeFiles 0 fullTask H0 H1) as [Ha [Hb _]].
  split; [exact Ha|exact Hb].
Defined.

(** C2. In every state the server can reach, the [ZipPath] of a task is
    non-empty exactly when its [Status] is "completed"; it is empty in the
    states "created", "processing" and "failed"; a step changes it only
    from empty, when it moves the task from "processing" to "completed"; and
    the status report of a GET carries a download URL exactly for a
    "completed" task. *)
Theorem C2_zip_path_iff_completed (cfg : Config) (evs : list Event) (p : nat) (task : Task) :
  heap (run cfg evs) !! p = Some task ->
  (ZipPath task <> "" <-> Status task = "completed")
  /\ (Status task = "created" \/ Status task = "processing" \/ Status task = "failed"
      -> ZipPath task = "")
  /\ (forall ev, exists task',
       heap (run cfg (evs ++ [ev])) !! p = Some task'
       /\ (ZipPath task' = ZipPath task
           \/ (ZipPath task = "" /\ Status task = "processing"
               /\ Status task' = "completed" /\ ZipPath task' <> "")))
  /\ response (getStatus task)
     = HttpJSON 200 (mkReport (ID task) (Status task) (length (Files task)) (Errors task)
         (if String.eqb (Status task) "completed"
          then Some ("/download/" +:+ filepath_Base (ZipPath task)) else None)).
Proof.
  intros Hp.
  pose proof (zipPath_status cfg _ p task (Inv_run cfg evs) Hp) as Hs.
  pose proof (zipPathOf_nonempty cfg task) as Hz.
  split; [|split; [|split]].
  - destruct Hs as [[Hs Hzp]|[[Hs Hzp]|[[Hs Hzp]|[Hs Hzp]]]]; rewrite Hs, Hzp;
      split; intros H; done.
  - destruct Hs as [[Hs Hzp]|[[Hs Hzp]|[[Hs Hzp]|[Hs Hzp]]]]; rewrite Hs;
      intros [H|[H|H]]; done.
  - intros ev. rewrite run_snoc.
    destruct (step_change cfg _ ev p task (Inv_run cfg evs) Hp) as (task' & d & Hh & Hc & _).
    exists task'. split; [done|].
    destruct Hc as [|e|f Ha Hr|f Ha Hr|e|Hst Hzp]; [auto..|].
    right. repeat split; [done|done|]. apply zipPathOf_nonempty.
  - unfold_handler. unfold response. cbn.
    destruct Hs as [[Hs Hzp]|[[Hs Hzp]|[[Hs Hzp]|[Hs Hzp]]]]; rewrite Hs; try done.
    cbn. rewrite Hzp. apply String.eqb_neq in Hz. by rewrite Hz.
Qed.

Lemma C2_witness :
  heap (run config built) !! 0 = Some doneTask
  /\ (ZipPath doneTask <> "" <-> Status doneTask = "completed").
Proof.
  assert (H1 : heap (run config built) !! 0 = Some doneTask) by (vm_compute; reflexivity).
  split; [exact H1|].
  exact (proj1 (C2_zip_path_iff_completed config built 0 doneTask H1)).
Defined.

(** C3.  The code at a URL with a "filename" query parameter: the check of
    the file type derives the name from the parameter ([parseURL]), but the
    file is stored, and written to the archive, under the last element of
    the raw URL text ([downloadFile]). *)
Theorem C3_stored_name_ignores_query_parameter :
  parseURL queryNamed = inr "report.pdf"
  /\ hasAllowedExtension queryNamed = true
  /\ downloadFile queryNamed fetched = inr ([], "download?filename=report.pdf")
  /\ Files (after (postFile config (postJSON queryNamed) fetched task0))
     = [mkFile queryNamed "download?filename=report.pdf" []]
  /\ snd (createZipArchive config None (fun _ => EntryWritten)
            (mkTask "17" "processing"
                    [mkFile queryNamed "download?filename=report.pdf" []] [] "" 18))
     = [("download?filename=report.pdf", [])].
Proof. vm_compute. auto. Qed.

(** C4, as stated, fails: after one task was created, one slot was acquired
    and none released, so the releases are fewer than the acquisitions. *)
Lemma C4_counterexample :
  let st := run config [EvTasks createRequest 17 18] in
  acquired st = 1 /\ released st = 0 /\ ~ (acquired st <= released st).
Proof. vm_compute. repeat split; try reflexivity. lia. Qed.

(** C4, amended.  In every state the server can reach, the releases of
    admission slots never exceed the successful acquisitions: there is one
    acquisition per task created and one release per archive build that
    returned; the slots outstanding are the elements of the channel and
    never exceed [MaxActiveTasks]; and a build that reaches its deferred
    release does release a slot. *)
Theorem C4_slots_balanced (cfg : Config) (evs : list Event) :
  (0 <= MaxActiveTasks cfg)%Z ->
  let st := run cfg evs in
  released st <= acquired st
  /\ acquired st - released st = taskSem st
  /\ (Z.of_nat (acquired st - released st) <= MaxActiveTasks cfg)%Z
  /\ acquired st = length (heap st)
  /\ released st = exited st
  /\ forall g gr, goroutines st !! g = Some gr -> pc gr = PcRelease ->
       released (step cfg st (EvBuild g Release)) = S (released st)
       /\ taskSem (step cfg st (EvBuild g Release)) = taskSem st - 1.
Proof.
  intros Hcap st.
  pose proof (SemInv_run cfg evs Hcap) as HS. pose proof (Inv_run cfg evs) as HI.
  fold st in HS, HI. destruct HS as [Hb Hc Ha Hr].
  do 5 (split; [lia|]).
  intros g gr Hg Hpc.
  pose proof (release_enabled cfg st g gr HI (mkSemInv cfg st Hb Hc Ha Hr) Hg) as He.
  rewrite Hpc in He. specialize (He eq_refl).
  cbn [step]. unfold buildStep. rewrite Hg.
  destruct (lookup_lt_is_Some_2 (heap st) (target gr)) as [task Ht];
    [by eapply (inv_target cfg)|].
  rewrite Ht, Hpc. destruct (taskSem st); [lia|]. cbn. split; [done|lia].
Qed.

Lemma C4_witness :
  (0 <= MaxActiveTasks config)%Z
  /\ released (run config finished) <= acquired (run config finished)
  /\ (Z.of_nat (acquired (run config finished) - released (run config finished))
      <= MaxActiveTasks config)%Z.
Proof.
  assert (H0 : (0 <= MaxActiveTasks config)%Z) by (by vm_compute).
  split; [exact H0|].
  pose proof (C4_slots_balanced config finished H0) as (Ha & _ & Hc & _).
  split; [exact Ha|exact Hc].
Defined.

(** C5. When a POST fetched its URL and the fetch failed, the task leaves
    the handler with exactly one diagnostic more, the same files and the same
    status, no build is started, and the task still accepts submissions: the
    same URL submitted again with a successful fetch is stored. *)
Theorem C5_fetch_failure (cfg : Config) (r : Request) (net : HttpGetResult) (task : Task)
        (url err : string) :
  In (OpHttpGet url) (ops (postFile cfg r net task)) ->
  downloadFile url net = inl err ->
  let task' := after (postFile cfg r net task) in
  Errors task' = Errors task ++ [downloadDiagnostic url err]
  /\ Files task' = Files task
  /\ Status task' = Status task
  /\ dispatched (postFile cfg r net task) = false
  /\ atQuota cfg task' = false
  /\ forall net' data filename,
       downloadFile url net' = inr (data, filename) ->
       Files (after (postFile cfg r net' task')) = Files task ++ [mkFile url filename data].
Proof.
  intros Hin Hf.
  destruct (postFile_fetches cfg r net task url Hin) as (Hq & Hd & Hv & He).
  cbv zeta. erewrite postFile_fetchFailed by done. cbn [after].
  do 3 (split; [done|]). split; [done|]. split; [exact Hq|].
  intros net' data filename Hf'.
  erewrite postFile_stored; [| |exact Hd|exact Hv|exact He|exact Hf']; [|exact Hq].
  cbv zeta. by destruct (reachesQuota _ _).
Qed.

Lemma C5_witness :
  In (OpHttpGet "http://h/a.pdf") (ops (postFile config pdfRequest notFound task0))
  /\ downloadFile "http://h/a.pdf" notFound = inl "HTTP status 404"
  /\ Errors (after (postFile config pdfRequest notFound task0))
     = ["Failed to download http://h/a.pdf: HTTP status 404"]
  /\ Files (after (postFile config pdfRequest notFound task0)) = []
  /\ Status (after (postFile config pdfRequest notFound task0)) = "created".
Proof.
  assert (H0 : In (OpHttpGet "http://h/a.pdf")
                  (ops (postFile config pdfRequest notFound task0)))
    by (vm_compute; tauto).
  assert (H1 : downloadFile "http://h/a.pdf" notFound = inl "HTTP status 404")
    by reflexivity.
  split; [exact H0|]. split; [exact H1|].
  pose proof (C5_fetch_failure config pdfRequest notFound task0 _ _ H0 H1)
    as (Ha & Hb & Hc & _).
  split; [exact Ha|]. split; [exact Hb|exact Hc].
Defined.

(** C6. Once the archive file was created, [createZipArchive] ends with the
    task "completed" whatever happens to the entries: each entry that fails
    adds one diagnostic and is left out, the entries after it are still
    written, and the status is never "failed". *)
Theorem C6_entry_failures_keep_completed (cfg : Config) (zipIO : nat -> EntryResult)
        (task : Task) :
  let task' := fst (createZipArchive cfg None zipIO task) in
  let zip' := snd (createZipArchive cfg None zipIO task) in
  Status task' = "completed"
  /\ Status task' <> "failed"
  /\ ZipPath task' = zipPathOf cfg task
  /\ Files task' = Files task
  /\ Errors task' = Errors task ++ entryDiagnostics (Files task) 0 zipIO
  /\ zip' = entriesWritten (Files task) 0 zipIO
  /\ length (entryDiagnostics (Files task) 0 zipIO) + length zip' = length (Files task).
Proof.
  cbv zeta. unfold createZipArchive.
  pose proof (writeEntries_spec (Files task) 0 zipIO task []) as Hs.
  destruct (writeEntries (Files task) 0 zipIO task []) as [task1 zip1].
  destruct Hs as [-> ->]. cbn.
  repeat split; try done. apply entries_count.
Qed.

(** The scenario of the specification: the second of three entries fails. *)
Example C6_scenario :
  let zipIO i := if Nat.eqb i 1 then EntryCreateFailed "duplicate" else EntryWritten in
  createZipArchive config None zipIO fullTask
  = (mkTask "17" "completed" [pdfFile; pdfFile; pdfFile]
            ["Failed to add file a.pdf to archive: duplicate"] "temp_archives/17.zip" 18,
     [("a.pdf", []); ("a.pdf", [])]).
Proof. reflexivity. Qed.

(** C7, as stated, fails in both directions: a well-formed absolute URL with
    the scheme ftp is rejected as an invalid URL, and a text that is not a
    well-formed URL but starts with "http://" is not: it is rejected for its
    file type. *)
Lemma C7_counterexample :
  (wellFormedAbsoluteURL "ftp://example.com/a.pdf" = true
   /\ response (postFile config (postJSON "ftp://example.com/a.pdf") fetched task0)
      = urlError)
  /\ (wellFormedAbsoluteURL "http://example.com/%zz.pdf" = false
      /\ response (postFile config (postJSON "http://example.com/%zz.pdf") fetched task0)
         = typeError).
Proof. vm_compute. auto. Qed.

(** C7, amended.  On a task below its quota and a request whose body
    decodes to [url], the POST is rejected as an invalid URL exactly when
    [url] starts neither with "http://" nor with "https://"; the task is then
    unchanged, nothing is fetched and no build is started. *)
Theorem C7_invalid_url_iff_no_http_prefix (cfg : Config) (r : Request) (net : HttpGetResult)
        (task : Task) (url : string) :
  atQuota cfg task = false ->
  decodeJSONBody r = (inr url, true) ->
  (response (postFile cfg r net task) = urlError
   <-> strings_HasPrefix url "http://" = false /\ strings_HasPrefix url "https://" = false)
  /\ (response (postFile cfg r net task) = urlError ->
      postFile cfg r net task = mkRun (inl urlError) task [OpLock; OpReadBody; OpUnlock]).
Proof.
  intros Hq Hd.
  assert (Hiff : isValidURL url = false
                 <-> strings_HasPrefix url "http://" = false
                     /\ strings_HasPrefix url "https://" = false).
  { unfold isValidURL. apply orb_false_iff. }
  destruct (isValidURL url) eqn:Hv.
  - assert (Hne : response (postFile cfg r net task) <> urlError).
    { destruct (hasAllowedExtension url) eqn:He.
      - destruct (downloadFile url net) as [err|[data filename]] eqn:Hf.
        + erewrite postFile_fetchFailed by done. done.
        + erewrite postFile_stored by done. cbv zeta. by destruct (reachesQuota _ _).
      - erewrite postFile_badType by done. cbn. intros [= H]. }
    split; [|done]. split; [done|]. intros H. apply Hiff in H. done.
  - erewrite postFile_badURL by done. split; [|done].
    split; [intros _; by apply Hiff|done].
Qed.

Lemma C7_witness :
  atQuota config task0 = false
  /\ decodeJSONBody (postJSON "ftp://example.com/a.pdf") = (inr "ftp://example.com/a.pdf", true)
  /\ (response (postFile config (postJSON "ftp://example.com/a.pdf") fetched task0) = urlError
      <-> strings_HasPrefix "ftp://example.com/a.pdf" "http://" = false
          /\ strings_HasPrefix "ftp://example.com/a.pdf" "https://" = false).
Proof.
  assert (H0 : atQuota config task0 = false) by reflexivity.
  assert (H1 : decodeJSONBody (postJSON "ftp://example.com/a.pdf")
               = (inr "ftp://example.com/a.pdf", true)) by reflexivity.
  split; [exact H0|]. split; [exact H1|].
  exact (proj1 (C7_invalid_url_iff_no_http_prefix config _ fetched task0 _ H0 H1)).
Defined.

(** C8, as stated, fails: in the trace of a POST that fetches, the fetch
    runs between the lock and the deferred unlock, with the mutex held. *)
Lemma C8_counterexample :
  ops (postFile config pdfRequest fetched task0)
  = [OpLock; OpReadBody; OpHttpGet "http://h/a.pdf"; OpUnlock]
  /\ withLock false (ops (postFile config pdfRequest fetched task0))
     = [(OpLock, false); (OpReadBody, true); (OpHttpGet "http://h/a.pdf", true);
        (OpUnlock, true)]
  /\ fetchesUnlocked (ops (postFile config pdfRequest fetched task0)) = false.
Proof. vm_compute. auto. Qed.

(** C8, amended.  A POST takes the task's mutex once, first, and releases it
    once, last, when the handler returns; the mutex is held during every
    operation in between, the network fetch included. *)
Theorem C8_lock_held_across_fetch (cfg : Config) (r : Request) (net : HttpGetResult)
        (task : Task) :
  let tr := ops (postFile cfg r net task) in
  fetchesLocked tr = true
  /\ exists body, tr = OpLock :: body ++ [OpUnlock]
       /\ ~ In OpLock body /\ ~ In OpUnlock body
       /\ forall o h, In (o, h) (withLock true body) -> h = true.
Proof.
  cbv zeta.
  destruct (postFile_ops cfg r net task)
    as [Ht|[Ht|(u & _ & _ & _ & _ & [Ht|Ht])]]; rewrite Ht; (split; [reflexivity|]).
  - exists []. cbn. tauto.
  - exists [OpReadBody]. cbn. split; [done|]. split; [intros [H|[]]; done|].
    split; [intros [H|[]]; done|]. intros o h [[= <- <-]|[]]. done.
  - exists [OpReadBody; OpHttpGet u]. cbn. split; [done|].
    split; [intros [H|[H|[]]]; done|]. split; [intros [H|[H|[]]]; done|].
    intros o h [[= <- <-]|[[= <- <-]|[]]]; done.
  - exists [OpReadBody; OpHttpGet u; OpGo]. cbn. split; [done|].
    split; [intros [H|[H|[H|[]]]]; done|]. split; [intros [H|[H|[H|[]]]]; done|].
    intros o h [[= <- <-]|[[= <- <-]|[[= <- <-]|[]]]]; done.
Qed.

(** C9, as stated, fails on a task that holds its quota of files: the
    request with another content type is rejected there for the quota, not
    for its body. *)
Lemma C9_counterexample :
  ContentType textRequest <> "application/json"
  /\ response (postFile config textRequest fetched fullTask) = quotaError
  /\ response (postFile config textRequest fetched fullTask) <> bodyError.
Proof. vm_compute. repeat split; intros [=]. Qed.

(** C9, amended.  A POST whose Content-Type is not exactly
    "application/json" leaves the task unchanged and starts no build; on a
    task below its quota it is rejected as an invalid request body, without
    the body being read. *)
Theorem C9_content_type_must_be_json (cfg : Config) (r : Request) (net : HttpGetResult)
        (task : Task) :
  ContentType r <> "application/json" ->
  after (postFile cfg r net task) = task
  /\ dispatched (postFile cfg r net task) = false
  /\ (atQuota cfg task = false ->
      postFile cfg r net task = mkRun (inl bodyError) task [OpLock; OpUnlock]).
Proof.
  intros Hct.
  assert (Hd : decodeJSONBody r = (inl "content type is not application/json", false)).
  { unfold decodeJSONBody. apply String.eqb_neq in Hct. by rewrite Hct. }
  destruct (atQuota cfg task) eqn:Hq.
  - rewrite postFile_atQuota by done. done.
  - erewrite postFile_badBody by done. done.
Qed.

Lemma C9_witness :
  ContentType charsetRequest <> "application/json"
  /\ atQuota config task0 = false
  /\ postFile config charsetRequest fetched task0
     = mkRun (inl bodyError) task0 [OpLock; OpUnlock].
Proof.
  assert (H0 : ContentType charsetRequest <> "application/json") by (intros [=]).
  assert (H1 : atQuota config task0 = false) by reflexivity.
  split; [exact H0|]. split; [exact H1|].
  exact (proj2 (proj2 (C9_content_type_must_be_json config charsetRequest fetched task0 H0)) H1).
Defined.

(** C10. The checks of a POST run in the order quota, request body, URL,
    file type.  On a task that holds its quota every request is rejected for
    the quota, whatever its body and URL, before the body is read; below the
    quota a request with a bad body is rejected for the body whatever its
    URL, a URL without the http prefix is rejected as invalid whatever its
    file type, and only then the file type is looked at. *)
Theorem C10_checks_in_order (cfg : Config) (r : Request) (net : HttpGetResult) (task : Task) :
  (atQuota cfg task = true ->
   postFile cfg r net task = mkRun (inl quotaError) task [OpLock; OpUnlock]
   /\ ~ In OpReadBody (ops (postFile cfg r net task)))
  /\ (atQuota cfg task = false ->
      forall err read, decodeJSONBody r = (inl err, read) ->
      response (postFile cfg r net task) = bodyError
      /\ after (postFile cfg r net task) = task)
  /\ (atQuota cfg task = false ->
      forall url, decodeJSONBody r = (inr url, true) -> isValidURL url = false ->
      response (postFile cfg r net task) = urlError
      /\ after (postFile cfg r net task) = task)
  /\ (atQuota cfg task = false ->
      forall url, decodeJSONBody r = (inr url, true) -> isValidURL url = true ->
      hasAllowedExtension url = false ->
      response (postFile cfg r net task) = typeError
      /\ after (postFile cfg r net task) = task).
Proof.
  split; [|split; [|split]].
  - intros Hq. rewrite postFile_atQuota by done. split; [done|].
    cbn. intros [H|[H|[]]]; done.
  - intros Hq err read Hd. erewrite postFile_badBody by done. done.
  - intros Hq url Hd Hv. erewrite postFile_badURL by done. done.
  - intros Hq url Hd Hv He. erewrite postFile_badType by done. done.
Qed.

Lemma C10_witness :
  atQuota config fullTask = true
  /\ postFile config malformedRequest fetched fullTask
     = mkRun (inl quotaError) fullTask [OpLock; OpUnlock]
  /\ postFile config (postJSON "ftp://h/a.exe") fetched fullTask
     = mkRun (inl quotaError) fullTask [OpLock; OpUnlock]
  /\ response (postFile config (postJSON "ftp://h/a.exe") fetched task0) = urlError.
Proof.
  assert (H0 : atQuota config fullTask = true) by reflexivity.
  assert (H1 : atQuota config task0 = false) by reflexivity.
  split; [exact H0|].
  split; [exact (proj1 (proj1 (C10_checks_in_order config malformedRequest fetched fullTask) H0))|].
  split; [exact (proj1 (proj1 (C10_checks_in_order config (postJSON "ftp://h/a.exe") fetched
                                  fullTask) H0))|].
  exact (proj1 (proj1 (proj2 (proj2 (C10_checks_in_order config (postJSON "ftp://h/a.exe")
                                        fetched task0))) H1 "ftp://h/a.exe" eq_refl eq_refl)).
Defined.

(** * Further properties of the code *)
(** ** Texts without separator *)

Lemma chars_app a b : chars (a +:+ b) = chars a ++ chars b.
Proof.
  unfold chars. induction a as [|c a IH]; [done|].
  change (String c a +:+ b) with (String c (a +:+ b)). cbn. by f_equal.
Qed.

Lemma str_chars s : str (chars s) = s.
Proof. apply string_of_list_ascii_of_string. Qed.

Lemma chars_str l : chars (str l) = l.
Proof. apply list_ascii_of_string_of_list_ascii. Qed.

Lemma slashFree_app a b : slashFree (a +:+ b) = slashFree a && slashFree b.
Proof. unfold slashFree. by rewrite chars_app, forallb_app. Qed.

Lemma strings_Split_slashFree s : slashFree s = true -> strings_Split s "/" = [s].
Proof.
  induction s as [|c s IH]; [done|]. unfold slashFree. cbn.
  intros H. apply andb_true_iff in H as [Hc Hs].
  unfold isSep in Hc. apply negb_true_iff in Hc. rewrite Hc.
  by rewrite (IH Hs).
Qed.

Lemma strings_Split_cons a b :
  slashFree a = true ->
  strings_Split (a +:+ String "/" b) "/" = a :: strings_Split b "/".
Proof.
  induction a as [|c a IH]; [done|]. unfold slashFree. cbn.
  intros H. apply andb_true_iff in H as [Hc Hs].
  unfold isSep in Hc. apply negb_true_iff in Hc.
  change (String c a +:+ String "/" b) with (String c (a +:+ String "/" b)).
  cbn. rewrite Hc. by rewrite (IH Hs).
Qed.

Lemma strings_Split_length s sep :
  length (strings_Split s sep) = S (strings_Count s sep).
Proof.
  unfold strings_Count, chars. induction s as [|c s IH]; [done|].
  cbn [strings_Split list_ascii_of_string List.filter].
  rewrite (Ascii.eqb_sym sep c). destruct (Ascii.eqb c sep); cbn [length].
  - by rewrite IH.
  - rewrite <- IH. by destruct (strings_Split s sep).
Qed.

Lemma uint_slashFree d : slashFree (NilEmpty.string_of_uint d) = true.
Proof. induction d; cbn; try done. Qed.

Lemma itoa_slashFree n : slashFree (itoa n) = true.
Proof.
  unfold itoa, NilZero.string_of_int, NilZero.string_of_uint.
  destruct (Z.to_int n) as [d|d].
  - destruct d; try done; apply uint_slashFree.
  - assert (H : forall u, slashFree (String "-" (NilEmpty.string_of_uint u)) = true)
      by (intros u; exact (uint_slashFree u)).
    destruct d; try done; apply H.
Qed.

Lemma itoa_nonempty n : itoa n <> "".
Proof.
  unfold itoa, NilZero.string_of_int.
  destruct (Z.to_int n) as [d|d]; [|done].
  unfold NilZero.string_of_uint. by destruct d.
Qed.

(** ** Last elements of paths *)

Lemma takeElem_slashFree l : forallb (fun c => negb (isSep c)) (takeElem l) = true.
Proof.
  induction l as [|c l IH]; [done|]. cbn.
  destruct (isSep c) eqn:E; [done|]. cbn. by rewrite E.
Qed.

Lemma extScan_slashFree r acc :
  forallb (fun c => negb (isSep c)) acc = true ->
  forallb (fun c => negb (isSep c)) (extScan r acc) = true.
Proof.
  revert acc. induction r as [|c r IH]; intros acc Hacc; [done|]. cbn.
  destruct (isSep c) eqn:E; [done|].
  destruct (Ascii.eqb c "."); [cbn; by rewrite E|].
  apply IH. cbn. by rewrite E.
Qed.

Lemma forallb_rev {A} (f : A -> bool) l : forallb f (rev l) = forallb f l.
Proof.
  induction l as [|x l IH]; [done|]. cbn.
  rewrite forallb_app, IH. cbn. by rewrite andb_true_r, andb_comm.
Qed.

Lemma filepath_Ext_slashFree path : slashFree (filepath_Ext path) = true.
Proof.
  unfold slashFree, filepath_Ext. rewrite chars_str. by apply extScan_slashFree.
Qed.

(** [filepath.Base] returns ".", "/" or a non-empty text without separator. *)
Lemma filepath_Base_cases path :
  filepath_Base path = "." \/ filepath_Base path = "/"
  \/ (filepath_Base path <> "" /\ slashFree (filepath_Base path) = true).
Proof.
  unfold filepath_Base. destruct path as [|c path]; [by left|].
  pose proof (takeElem_slashFree (dropSeps (rev (chars (String c path))))) as H.
  destruct (takeElem _) as [|x e] eqn:E; [by right; left|].
  right. right. split.
  - intros Hs. apply (f_equal chars) in Hs. rewrite chars_str in Hs.
    apply (f_equal (@length ascii)) in Hs. rewrite length_rev in Hs. done.
  - unfold slashFree. by rewrite chars_str, forallb_rev.
Qed.

Lemma takeElem_app e l :
  forallb (fun c => negb (isSep c)) e = true -> takeElem (e ++ "/"%char :: l) = e.
Proof.
  induction e as [|c e IH]; [done|]. cbn. intros H.
  apply andb_true_iff in H as [Hc He]. apply negb_true_iff in Hc. rewrite Hc.
  by rewrite IH.
Qed.

(** The last element of a path that ends in a non-empty element. *)
Lemma filepath_Base_last dir e :
  e <> "" -> slashFree e = true -> filepath_Base (dir +:+ String "/" e) = e.
Proof.
  intros Hne Hsf. unfold filepath_Base.
  destruct (dir +:+ String "/" e) as [|c0 s0] eqn:Hp.
  { apply (f_equal chars) in Hp. rewrite chars_app in Hp. by destruct (chars dir). }
  rewrite <- Hp, chars_app.
  change (chars (String "/" e)) with ("/"%char :: chars e).
  rewrite rev_app_distr. cbn [rev]. rewrite <- app_assoc. cbn [app].
  assert (Hr : forallb (fun c => negb (isSep c)) (rev (chars e)) = true)
    by (by rewrite forallb_rev).
  destruct (rev (chars e)) as [|x l] eqn:Er.
  { apply (f_equal (@rev ascii)) in Er. rewrite rev_involutive in Er. cbn in Er.
    apply (f_equal str) in Er. rewrite str_chars in Er. done. }
  assert (Hx : isSep x = false).
  { cbn in Hr. apply andb_true_iff in Hr as [Hx _]. by apply negb_true_iff. }
  cbn [dropSeps app]. rewrite Hx.
  change (x :: l ++ "/"%char :: rev (chars dir)) with ((x :: l) ++ "/"%char :: rev (chars dir)).
  rewrite takeElem_app by done.
  change (str (rev (x :: l)) = e).
  by rewrite <- Er, rev_involutive, str_chars.
Qed.

Lemma length_chars s : length (chars s) = String.length s.
Proof. unfold chars. induction s; cbn; auto. Qed.

(** Cleaning "dir/name" with a plain directory and a plain name changes
    nothing. *)
Lemma filepath_Join_plain dir name :
  slashFree dir = true -> slashFree name = true ->
  dir <> "" -> dir <> "." -> dir <> ".." ->
  name <> "" -> name <> "." -> name <> ".." ->
  filepath_Join [dir; name] = dir +:+ String "/" name.
Proof.
  intros Hd Hn Hd0 Hd1 Hd2 Hn0 Hn1 Hn2.
  apply String.eqb_neq in Hd0, Hd1, Hd2, Hn0, Hn1, Hn2.
  cbn [filepath_Join strings_Join]. rewrite Hd0.
  change (dir +:+ "/" +:+ name) with (dir +:+ String "/" name).
  unfold filepath_Clean.
  destruct (dir +:+ String "/" name) as [|c s] eqn:Hp.
  { apply (f_equal chars) in Hp. rewrite chars_app in Hp. by destruct (chars dir). }
  assert (Hc : isSep c = false).
  { destruct dir as [|d dir']; [done|].
    change (String d dir' +:+ String "/" name) with (String d (dir' +:+ String "/" name)) in Hp.
    injection Hp as -> _. unfold slashFree in Hd. cbn in Hd.
    apply andb_true_iff in Hd as [Hd _]. by apply negb_true_iff. }
  rewrite Hc, <- Hp, strings_Split_cons, strings_Split_slashFree by done.
  cbn [cleanElems]. rewrite Hd0, Hd1, Hd2, Hn0, Hn1, Hn2. cbn [rev app strings_Join].
  change (dir +:+ "/" +:+ name) with (dir +:+ String "/" name).
  by rewrite Hp.
Qed.

(** ** One step, in full *)

Lemma idle_created cfg st p task :
  Inv cfg st -> heap st !! p = Some task -> atQuota cfg task = false ->
  Status task = "created".
Proof.
  intros HI Hp Hq. pose proof (below_quota_idle cfg st p task HI Hp Hq) as Hn.
  destruct HI as [_ Ht _ _]. destruct (Ht _ _ Hp) as [Hidle _]. by destruct (Hidle Hn).
Qed.

Lemma targeted_atQuota cfg st g gr task :
  Inv cfg st -> goroutines st !! g = Some gr -> heap st !! target gr = Some task ->
  atQuota cfg task = true /\ pcOK cfg (pc gr) task.
Proof.
  intros [_ Ht _ _] Hg Hh. destruct (Ht _ _ Hh) as [_ Hgo].
  destruct (Hgo _ _ Hg eq_refl) as [Hlen Hpc]. split; [|done].
  unfold atQuota. rewrite Hlen. apply Z.geb_le. lia.
Qed.

Lemma buildStep_transition cfg st g b p task :
  Inv cfg st -> heap st !! p = Some task ->
  exists task', heap (buildStep cfg st g b) !! p = Some task' /\ Transition cfg task task'.
Proof.
  intros HI Hp. unfold buildStep.
  assert (Hstay : exists task', heap st !! p = Some task' /\ Transition cfg task task')
    by (exists task; split; [done|constructor]).
  destruct (goroutines st !! g) as [gr|] eqn:Hg; [|done].
  destruct (heap st !! target gr) as [task0|] eqn:Hh; [|done].
  destruct (targeted_atQuota cfg st g gr task0 HI Hg Hh) as [Hq Hok].
  assert (Hstore : forall task1 gr1,
            Transition cfg task0 task1 ->
            exists task',
              heap (setGoroutines (<[g := gr1]> (goroutines st))
                      (setHeap (<[target gr := task1]> (heap st)) st)) !! p = Some task'
              /\ Transition cfg task task').
  { intros task1 gr1 Hc. cbn [heap setHeap setGoroutines].
    destruct (insert_lookup_cases (heap st) (target gr) task1 p task Hp)
      as [[-> Hl]|[Hne Hl]]; rewrite Hl.
    - exists task1. rewrite Hp in Hh. injection Hh as ->. done.
    - exists task. split; [done|constructor]. }
  destruct b as [[err|]|res| |]; destruct (pc gr) as [|rest| |] eqn:Hpc;
    try done; try (by destruct rest).
  - apply Hstore. destruct Hok. by constructor.
  - apply Hstore. constructor.
  - destruct rest as [|file rest]; [done|].
    destruct (writeEntry file res task0 (zip gr)) as [task1 zip1] eqn:Hw.
    apply Hstore. unfold writeEntry in Hw. destruct Hok.
    destruct res; injection Hw as <- <-; by constructor.
  - destruct rest as [|file rest]; [|done].
    apply Hstore. destruct Hok. by constructor.
  - by destruct (taskSem st).
Qed.

(** One step changes a task by one [Transition]. *)
Lemma step_transition cfg st ev p task :
  Inv cfg st -> heap st !! p = Some task ->
  exists task', heap (step cfg st ev) !! p = Some task' /\ Transition cfg task task'.
Proof.
  intros HI Hp.
  assert (Hstay : exists task', heap st !! p = Some task' /\ Transition cfg task task')
    by (exists task; split; [done|constructor]).
  destruct ev as [r idNow createdNow|r net|g b]; cbn [step].
  - unfold handleTasks. destruct (negb _); [done|]. destruct (_ <? _)%Z; [|done].
    exists task. cbn. rewrite lookup_app_l by (by eapply lookup_lt_Some).
    split; [done|constructor].
  - unfold handleTaskFiles. destruct (_ <? _)%nat; [done|].
    destruct (lookupTask st _) as [[q task0]|] eqn:Hl; [|done].
    apply lookupTask_Some in Hl.
    destruct (String.eqb (Method r) "POST"); cbn [fst];
      [|by destruct (String.eqb (Method r) "GET")].
    assert (Hheap : forall gs h, heap (setGoroutines gs (setHeap h st)) = h) by done.
    assert (Hh' : heap (if dispatched (postFile cfg r net task0)
                        then setGoroutines
                               (goroutines (setHeap (<[q:=after (postFile cfg r net task0)]> (heap st)) st)
                                ++ [mkGoroutine q PcCreate []])
                               (setHeap (<[q:=after (postFile cfg r net task0)]> (heap st)) st)
                        else setHeap (<[q:=after (postFile cfg r net task0)]> (heap st)) st)
                  = <[q:=after (postFile cfg r net task0)]> (heap st))
      by (by destruct (dispatched _)).
    rewrite Hh'.
    destruct (insert_lookup_cases (heap st) q (after (postFile cfg r net task0)) p task Hp)
      as [[-> Hi]|[Hne Hi]]; rewrite Hi; [|exists task; split; [done|constructor]].
    rewrite Hp in Hl. injection Hl as <-.
    eexists. split; [done|].
    destruct (postFile_effect cfg r net task) as [Ha Hd|e Hq Ha Hd|f Hq Hr Ha Hd|f Hq Hr Ha Hd];
      rewrite Ha.
    + constructor.
    + pose proof (idle_created cfg st _ task HI Hp Hq). by constructor.
    + pose proof (idle_created cfg st _ task HI Hp Hq). by constructor.
    + pose proof (idle_created cfg st _ task HI Hp Hq). by constructor.
  - by apply buildStep_transition.
Qed.

Lemma Transition_facts cfg task task' :
  Transition cfg task task' ->
  ID task' = ID task /\ CreatedAt task' = CreatedAt task
  /\ Files task `prefix_of` Files task' /\ Errors task `prefix_of` Errors task'.
Proof.
  destruct 1; cbn; repeat split; try done; by apply prefix_app_r.
Qed.

(** The transitions of a task along a continuation of a run. *)
Lemma run_transitions cfg evs evs' p task :
  heap (run cfg evs) !! p = Some task ->
  exists task', heap (run cfg (evs ++ evs')) !! p = Some task'
                /\ rtc (Transition cfg) task task'.
Proof.
  intros Hp. induction evs' as [|ev evs' IH] using rev_ind.
  - rewrite app_nil_r. by exists task.
  - destruct IH as (task1 & H1 & Hr).
    rewrite app_assoc, run_snoc.
    destruct (step_transition cfg _ ev p task1 (Inv_run cfg (evs ++ evs')) H1)
      as (task' & H' & Ht).
    exists task'. split; [done|]. by eapply rtc_r.
Qed.

(** ** The registry *)

Lemma step_registry cfg st ev :
  (exists idNow createdNow,
      heap (step cfg st ev)
      = heap st ++ [mkTask (generateTaskID idNow) "created" [] [] "" createdNow]
      /\ tasks (step cfg st ev) = <[generateTaskID idNow := length (heap st)]> (tasks st))
  \/ (length (heap (step cfg st ev)) = length (heap st)
      /\ tasks (step cfg st ev) = tasks st).
Proof.
  destruct ev as [r idNow createdNow|r net|g b]; cbn [step].
  - unfold handleTasks. destruct (negb _); [by right|].
    destruct (_ <? _)%Z; [|by right]. left. by exists idNow, createdNow.
  - right. unfold handleTaskFiles. destruct (_ <? _)%nat; [done|].
    destruct (lookupTask st _) as [[q task0]|]; [|done].
    destruct (String.eqb (Method r) "POST"); cbn [fst].
    + destruct (dispatched _); cbn; by rewrite length_insert.
    + by destruct (String.eqb (Method r) "GET").
  - right. unfold buildStep.
    destruct (goroutines st !! g) as [gr|]; [|done].
    destruct (heap st !! target gr) as [task0|]; [|done].
    destruct b as [[err|]|res| |]; destruct (pc gr) as [|rest| |];
      try done; try (by destruct rest); cbn; try (by rewrite length_insert).
    + destruct rest as [|file rest]; [done|].
      destruct (writeEntry _ _ _ _). cbn. by rewrite length_insert.
    + destruct rest as [|file rest]; [|done]. cbn. by rewrite length_insert.
    + by destruct (taskSem st).
Qed.

Lemma RegInv_step cfg st ev : Inv cfg st -> RegInv st -> RegInv (step cfg st ev).
Proof.
  intros HI [Hreg Hid].
  destruct (step_registry cfg st ev) as [(idNow & createdNow & Hh & Ht)|[Hlen Ht]].
  - split.
    + intros id p Hl. rewrite Ht in Hl. rewrite Hh.
      apply lookup_insert_Some in Hl as [[<- <-]|[_ Hl]].
      * eexists. split; [apply list_lookup_middle; done|done].
      * destruct (Hreg _ _ Hl) as (task & Hp & Hi). exists task.
        split; [|done]. rewrite lookup_app_l; [done|by eapply lookup_lt_Some].
    + intros p task Hp. rewrite Hh in Hp.
      apply lookup_app_Some in Hp as [Hp|[_ Hp]]; [eauto|].
      apply list_lookup_singleton_Some in Hp as [_ <-]. by exists idNow.
  - assert (Hkeep : forall p task, heap st !! p = Some task ->
              exists task', heap (step cfg st ev) !! p = Some task' /\ ID task' = ID task).
    { intros p task Hp.
      destruct (step_transition cfg st ev p task HI Hp) as (task' & Hp' & Htr).
      exists task'. split; [done|]. by destruct (Transition_facts _ _ _ Htr). }
    split.
    + intros id p Hl. rewrite Ht in Hl.
      destruct (Hreg _ _ Hl) as (task & Hp & Hi).
      destruct (Hkeep _ _ Hp) as (task' & Hp' & Hi'). exists task'.
      split; [done|congruence].
    + intros p task' Hp'.
      destruct (lookup_lt_is_Some_2 (heap st) p) as [task Hp].
      { rewrite <- Hlen. by eapply lookup_lt_Some. }
      destruct (Hkeep _ _ Hp) as (task'' & Hp'' & Hi'').
      rewrite Hp' in Hp''. injection Hp'' as <-.
      destruct (Hid _ _ Hp) as [n Hn]. exists n. congruence.
Qed.

Lemma RegInv_run cfg evs : RegInv (run cfg evs).
Proof.
  induction evs as [|ev evs IH] using rev_ind; [by split|].
  rewrite run_snoc. apply RegInv_step; [apply Inv_run|done].
Qed.

Lemma registered_stays cfg evs evs' id :
  is_Some (tasks (run cfg evs) !! id) -> is_Some (tasks (run cfg (evs ++ evs')) !! id).
Proof.
  intros Hs. induction evs' as [|ev evs' IH] using rev_ind; [by rewrite app_nil_r|].
  rewrite app_assoc, run_snoc.
  destruct (step_registry cfg (run cfg (evs ++ evs')) ev)
    as [(idNow & createdNow & _ & Ht)|[_ Ht]]; rewrite Ht; [|done].
  destruct (decide (generateTaskID idNow = id)) as [->|Hne].
  - rewrite lookup_insert_eq. eauto.
  - by rewrite lookup_insert_ne.
Qed.

(** A GET that is routed to a task answers with the report of the task and
    leaves the server as it is. *)
Lemma handleTaskFiles_GET cfg st r net p task :
  Method r = "GET" ->
  (TaskIDPathParts <= length (strings_Split (URLPath r) "/"))%nat ->
  lookupTask st (nth 2 (strings_Split (URLPath r) "/") "") = Some (p, task) ->
  handleTaskFiles cfg st r net = (st, HttpJSON 200 (reportOf task), [OpLock; OpUnlock]).
Proof.
  intros Hm Hlen Hl. unfold handleTaskFiles.
  destruct (_ <? _)%nat eqn:E; [apply Nat.ltb_lt in E; lia|].
  rewrite Hl, Hm. cbn. unfold_handler. done.
Qed.

(** ** Responses *)

(** A POST is either refused with one of four errors, leaving the task as
    it is, or answered 202. *)
Lemma postFile_outcome cfg r net task :
  (In (response (postFile cfg r net task)) [quotaError; bodyError; urlError; typeError]
   /\ after (postFile cfg r net task) = task
   /\ dispatched (postFile cfg r net task) = false)
  \/ exists body, response (postFile cfg r net task) = HttpReply 202 body.
Proof.
  destruct (atQuota cfg task) eqn:Hq.
  { rewrite postFile_atQuota by done. left. cbn. auto. }
  destruct (decodeJSONBody r) as [[err|url] read] eqn:Hd.
  { erewrite postFile_badBody by done. left. cbn. split; [auto|]. by destruct read. }
  destruct (isValidURL url) eqn:Hv.
  2:{ erewrite postFile_badURL by done. left. cbn. auto. }
  destruct (hasAllowedExtension url) eqn:He.
  2:{ erewrite postFile_badType by done. left. cbn. auto 6. }
  right. destruct (downloadFile url net) as [err|[data filename]] eqn:Hf.
  { erewrite postFile_fetchFailed by done. by eexists. }
  erewrite postFile_stored by done. cbv zeta.
  destruct (reachesQuota _ _); by eexists.
Qed.

(** A POST reads its request through [decodeJSONBody] only. *)
Lemma postFile_request_ext cfg r r' net task :
  ContentType r' = ContentType r -> Body r' = Body r ->
  postFile cfg r' net task = postFile cfg r net task.
Proof.
  intros Hc Hb. unfold postFile, decodeRequest, decodeJSONBody. by rewrite Hc, Hb.
Qed.

Lemma prefix_app_inv a s : String.prefix a s = true -> exists rest, s = a +:+ rest.
Proof.
  revert s. induction a as [|c a IH]; intros s H; [by exists s|].
  destruct s as [|d s]; [done|]. cbn in H.
  destruct (ascii_dec c d) as [->|]; [|done].
  destruct (IH _ H) as [rest ->]. by exists rest.
Qed.

Lemma strings_Count_app a b sep :
  strings_Count (a +:+ b) sep = strings_Count a sep + strings_Count b sep.
Proof. unfold strings_Count. by rewrite chars_app, List.filter_app, length_app. Qed.

(** X1. [handleTasks] admits a POST exactly while fewer than
    [MaxActiveTasks] tasks are alive, a task being alive from its creation
    until its archive build has returned; at the limit the request is
    answered 503 and nothing changes. *)
Theorem X1_admission (cfg : Config) (evs : list Event) (r : Request) (idNow createdNow : Z) :
  (0 <= MaxActiveTasks cfg)%Z ->
  Method r = "POST" ->
  let st := run cfg evs in
  let alive := length (heap st) - exited st in
  (Z.of_nat alive <= MaxActiveTasks cfg)%Z
  /\ ((Z.of_nat alive < MaxActiveTasks cfg)%Z ->
      snd (handleTasks cfg st r idNow createdNow)
      = HttpReply 201 (jsonObj [("task_id", jstr (generateTaskID idNow));
                                ("status", jstr "created")])
      /\ length (heap (fst (handleTasks cfg st r idNow createdNow))) = S (length (heap st))
      /\ taskSem (fst (handleTasks cfg st r idNow createdNow)) = S (taskSem st))
  /\ (Z.of_nat alive = MaxActiveTasks cfg ->
      handleTasks cfg st r idNow createdNow
      = (st, HttpError (jsonObj [("error", jstr "Server is busy. Try again later.")]) 503)).
Proof.
  intros Hcap Hm st alive.
  destruct (SemInv_run cfg evs Hcap) as [Hb Hc Ha Hr]. fold st in Hb, Hc, Ha, Hr.
  assert (Hal : alive = taskSem st) by (unfold alive; lia).
  rewrite Hal. split; [done|].
  unfold handleTasks. rewrite Hm.
  change (negb (String.eqb "POST" "POST")) with false. cbv iota.
  split.
  - intros Hlt. apply Z.ltb_lt in Hlt. rewrite Hlt. cbn. rewrite length_app. cbn.
    split; [done|]. split; [lia|done].
  - intros Heq. assert (Hge : (Z.of_nat (taskSem st) <? MaxActiveTasks cfg)%Z = false)
      by (apply Z.ltb_ge; lia).
    by rewrite Hge.
Qed.

Lemma X1_witness :
  (0 <= MaxActiveTasks config)%Z
  /\ Method createRequest = "POST"
  /\ taskSem (fst (handleTasks config (run config threeFiles) createRequest 20 20)) = 2
  /\ handleTasks config (run config threeTasks) createRequest 20 20
     = (run config threeTasks,
        HttpError (jsonObj [("error", jstr "Server is busy. Try again later.")]) 503).
Proof.
  assert (H0 : (0 <= MaxActiveTasks config)%Z) by (by vm_compute).
  assert (H1 : Method createRequest = "POST") by reflexivity.
  split; [exact H0|]. split; [exact H1|]. split.
  - pose proof (X1_admission config threeFiles createRequest 20 20 H0 H1) as (_ & Hadm & _).
    assert (Hlt : (Z.of_nat (length (heap (run config threeFiles))
                             - exited (run config threeFiles)) < MaxActiveTasks config)%Z)
      by (by vm_compute).
    destruct (Hadm Hlt) as (_ & _ & Hs). rewrite Hs. by vm_compute.
  - pose proof (X1_admission config threeTasks createRequest 20 20 H0 H1) as (_ & _ & Hbusy).
    apply Hbusy. by vm_compute.
Defined.

(** X2. A task that [handleTasks] has created is found under the id printed
    in the response: the registry leads to the fresh task, and a GET on
    /tasks/<id>, with or without a further path element, reports it as
    "created" with no file, no error and no download URL. *)
Theorem X2_created_task_is_found (cfg : Config) (st : State) (r : Request)
        (idNow createdNow : Z) :
  Method r = "POST" ->
  (Z.of_nat (taskSem st) < MaxActiveTasks cfg)%Z ->
  let st' := fst (handleTasks cfg st r idNow createdNow) in
  let id := generateTaskID idNow in
  lookupTask st' id = Some (length (heap st), mkTask id "created" [] [] "" createdNow)
  /\ forall get net rest,
       Method get = "GET" ->
       URLPath get = "/tasks/" +:+ id \/ URLPath get = "/tasks/" +:+ id +:+ String "/" rest ->
       handleTaskFiles cfg st' get net
       = (st', HttpJSON 200 (mkReport id "created" 0 [] None), [OpLock; OpUnlock]).
Proof.
  intros Hm Hlt st' id.
  assert (Hst : st' = mkState (heap st ++ [mkTask id "created" [] [] "" createdNow])
                              (<[id := length (heap st)]> (tasks st))
                              (S (taskSem st)) (goroutines st) (S (acquired st)) (released st)).
  { unfold st', handleTasks. rewrite Hm. apply Z.ltb_lt in Hlt. rewrite Hlt. done. }
  assert (Hl : lookupTask st' id
               = Some (length (heap st), mkTask id "created" [] [] "" createdNow)).
  { rewrite Hst. unfold lookupTask. cbn [tasks heap].
    rewrite lookup_insert_eq. by rewrite list_lookup_middle. }
  split; [exact Hl|].
  intros get net rest Hg Hpath.
  assert (Hid : slashFree id = true) by apply itoa_slashFree.
  assert (Hsplit : exists tl, strings_Split (URLPath get) "/" = "" :: "tasks" :: id :: tl).
  { destruct Hpath as [-> | ->].
    - exists []. change ("/tasks/" +:+ id) with ("" +:+ String "/" ("tasks" +:+ String "/" id)).
      by rewrite !strings_Split_cons, strings_Split_slashFree.
    - exists (strings_Split rest "/").
      change ("/tasks/" +:+ id +:+ String "/" rest)
        with ("" +:+ String "/" ("tasks" +:+ String "/" (id +:+ String "/" rest))).
      by rewrite !strings_Split_cons. }
  destruct Hsplit as [tl Hs].
  rewrite (handleTaskFiles_GET cfg st' get net (length (heap st))
             (mkTask id "created" [] [] "" createdNow) Hg).
  - reflexivity.
  - rewrite Hs. cbn. unfold TaskIDPathParts. lia.
  - rewrite Hs. exact Hl.
Qed.

Lemma X2_witness :
  Method createRequest = "POST"
  /\ (Z.of_nat (taskSem init) < MaxActiveTasks config)%Z
  /\ handleTaskFiles config (fst (handleTasks config init createRequest 17 18)) getRequest fetched
     = (fst (handleTasks config init createRequest 17 18),
        HttpJSON 200 (mkReport "17" "created" 0 [] None), [OpLock; OpUnlock]).
Proof.
  assert (H0 : Method createRequest = "POST") by reflexivity.
  assert (H1 : (Z.of_nat (taskSem init) < MaxActiveTasks config)%Z) by (by vm_compute).
  split; [exact H0|]. split; [exact H1|].
  exact (proj2 (X2_created_task_is_found config init createRequest 17 18 H0 H1)
               getRequest fetched "" eq_refl (or_introl eq_refl)).
Defined.

(** X3. [handleTaskFiles] answers 400 "Invalid task ID" exactly when the
    path holds fewer than two separators, so never for a path under
    "/tasks/", the pattern it is registered for. *)
Theorem X3_invalid_task_id (cfg : Config) (st : State) (r : Request) (net : HttpGetResult) :
  (snd (fst (handleTaskFiles cfg st r net)) = HttpError "Invalid task ID" 400
   <-> strings_Count (URLPath r) "/" < 2)
  /\ (strings_HasPrefix (URLPath r) "/tasks/" = true ->
      snd (fst (handleTaskFiles cfg st r net)) <> HttpError "Invalid task ID" 400).
Proof.
  assert (Hiff : snd (fst (handleTaskFiles cfg st r net)) = HttpError "Invalid task ID" 400
                 <-> strings_Count (URLPath r) "/" < 2).
  { unfold handleTaskFiles. rewrite strings_Split_length. unfold TaskIDPathParts.
    destruct (_ <? _)%nat eqn:E.
    - apply Nat.ltb_lt in E. split; [lia|done].
    - apply Nat.ltb_ge in E. split; [|lia]. intros H. exfalso.
      destruct (lookupTask st _) as [[p task]|]; [|done].
      destruct (String.eqb (Method r) "POST"); cbn [fst snd] in H.
      + destruct (postFile_outcome cfg r net task) as [[Hin _]|[body Hb]].
        * rewrite H in Hin. cbn in Hin. unfold quotaError, bodyError, urlError, typeError in Hin.
          repeat (destruct Hin as [Hin|Hin]; [discriminate Hin|]). done.
        * by rewrite H in Hb.
      + destruct (String.eqb (Method r) "GET"); [|done]. revert H. by unfold_handler. }
  split; [exact Hiff|].
  intros Hpre Herr. apply Hiff in Herr.
  apply prefix_app_inv in Hpre as [rest Hrest]. rewrite Hrest in Herr.
  rewrite strings_Count_app in Herr.
  change (strings_Count "/tasks/" "/") with 2 in Herr. lia.
Qed.

Lemma X3_witness :
  strings_Count (URLPath shortPathRequest) "/" < 2
  /\ snd (fst (handleTaskFiles config init shortPathRequest fetched))
     = HttpError "Invalid task ID" 400.
Proof.
  assert (H0 : strings_Count (URLPath shortPathRequest) "/" < 2) by (vm_compute; lia).
  split; [exact H0|].
  exact (proj2 (proj1 (X3_invalid_task_id config init shortPathRequest fetched)) H0).
Defined.

(** X4. Requests change the server only when they are accepted:
    [handleTaskFiles] leaves the state as it is unless it is a POST answered
    202, and [handleTasks] unless it is a POST answered 201.  Every request
    answered with an error, and every GET, changes nothing. *)
Theorem X4_state_changes_only_on_accept (cfg : Config) (st : State) (r : Request)
        (net : HttpGetResult) (idNow createdNow : Z) :
  (fst (fst (handleTaskFiles cfg st r net)) = st
   \/ (Method r = "POST"
       /\ exists body, snd (fst (handleTaskFiles cfg st r net)) = HttpReply 202 body))
  /\ (fst (handleTasks cfg st r idNow createdNow) = st
      \/ (Method r = "POST"
          /\ exists body, snd (handleTasks cfg st r idNow createdNow) = HttpReply 201 body)).
Proof.
  split.
  - unfold handleTaskFiles. destruct (_ <? _)%nat; [by left|].
    destruct (lookupTask st _) as [[p task]|] eqn:Hl; [|by left].
    apply lookupTask_Some in Hl.
    destruct (String.eqb (Method r) "POST") eqn:Hm; cbn [fst snd].
    + apply String.eqb_eq in Hm.
      destruct (postFile_outcome cfg r net task) as [(_ & Ha & Hd)|Hb].
      * left. rewrite Ha, Hd. by apply setHeap_id.
      * right. done.
    + left. by destruct (String.eqb (Method r) "GET").
  - unfold handleTasks. destruct (String.eqb (Method r) "POST") eqn:Hm; cbn [negb]; [|by left].
    apply String.eqb_eq in Hm. destruct (_ <? _)%Z; [|by left].
    right. split; [done|]. by eexists.
Qed.

(** X5. [handleTaskFiles] uses the third element of the path only: two
    requests that differ in the rest of the path, for instance by the final
    "/files", are served alike. *)
Theorem X5_only_third_path_element (cfg : Config) (st : State) (r : Request)
        (net : HttpGetResult) (path' : string) :
  (TaskIDPathParts <= length (strings_Split (URLPath r) "/"))%nat ->
  (TaskIDPathParts <= length (strings_Split path' "/"))%nat ->
  nth 2 (strings_Split path' "/") "" = nth 2 (strings_Split (URLPath r) "/") "" ->
  handleTaskFiles cfg st (mkRequest (Method r) path' (ContentType r) (Body r)) net
  = handleTaskFiles cfg st r net.
Proof.
  intros H1 H2 Hn. unfold handleTaskFiles. cbn [URLPath Method].
  apply Nat.ltb_ge in H1, H2. rewrite H1, H2, Hn.
  destruct (lookupTask st _) as [[p task]|]; [|done].
  by rewrite (postFile_request_ext cfg r (mkRequest (Method r) path' (ContentType r) (Body r))).
Qed.

Lemma X5_witness :
  handleTaskFiles config (run config [EvTasks createRequest 17 18]) pdfRequestNoSuffix fetched
  = handleTaskFiles config (run config [EvTasks createRequest 17 18]) pdfRequest fetched.
Proof.
  apply (X5_only_third_path_element config _ pdfRequest fetched "/tasks/17").
  - vm_compute. lia.
  - vm_compute. lia.
  - reflexivity.
Defined.

(** ** The life of a task *)

Lemma Transition_terminal cfg task task' :
  terminal task -> Transition cfg task task' -> task' = task.
Proof.
  intros [Ht|Ht] Htr; destruct Htr; try done; congruence.
Qed.

Lemma rtc_terminal cfg task task' :
  terminal task -> rtc (Transition cfg) task task' -> task' = task.
Proof.
  intros Ht Hr. induction Hr as [|x y z Hxy Hyz IH]; [done|].
  apply (Transition_terminal cfg) in Hxy; [|done]. subst y. auto.
Qed.

Lemma Transition_atQuota cfg task task' :
  atQuota cfg task = true -> Transition cfg task task' ->
  Files task' = Files task /\ atQuota cfg task' = true.
Proof.
  intros Hq Htr. destruct Htr; try done; congruence.
Qed.

Lemma rtc_history cfg task task' :
  rtc (Transition cfg) task task' ->
  ID task' = ID task /\ CreatedAt task' = CreatedAt task
  /\ Files task `prefix_of` Files task' /\ Errors task `prefix_of` Errors task'
  /\ (atQuota cfg task = true -> Files task' = Files task).
Proof.
  induction 1 as [|x y z Hxy Hyz IH]; [done|].
  destruct (Transition_facts _ _ _ Hxy) as (Hi & Hc & Hf & He).
  destruct IH as (Hi' & Hc' & Hf' & He' & Hq').
  repeat split; try congruence; try (by etrans).
  intros Hq. destruct (Transition_atQuota _ _ _ Hq Hxy) as [Hfx Hqy].
  rewrite Hq' by done. done.
Qed.

(** X6. The status of a task moves only from "created" to "processing" and
    from "processing" to "completed" or "failed"; once a task is "completed"
    or "failed" no request and no goroutine changes anything of it. *)
Theorem X6_status_lifecycle (cfg : Config) (evs : list Event) (p : nat) (task : Task) :
  heap (run cfg evs) !! p = Some task ->
  (forall ev, exists task',
      heap (run cfg (evs ++ [ev])) !! p = Some task'
      /\ (Status task' = Status task
          \/ (Status task = "created" /\ Status task' = "processing")
          \/ (Status task = "processing"
              /\ (Status task' = "completed" \/ Status task' = "failed"))))
  /\ (terminal task -> forall evs', heap (run cfg (evs ++ evs')) !! p = Some task).
Proof.
  intros Hp. split.
  - intros ev. rewrite run_snoc.
    destruct (step_transition cfg _ ev p task (Inv_run cfg evs) Hp) as (task' & Hp' & Htr).
    exists task'. split; [done|].
    destruct Htr; cbn; auto.
  - intros Ht evs'.
    destruct (run_transitions cfg evs evs' p task Hp) as (task' & Hp' & Hr).
    by rewrite (rtc_terminal cfg task task' Ht Hr) in Hp'.
Qed.

Lemma X6_witness :
  heap (run config built) !! 0 = Some doneTask
  /\ terminal doneTask
  /\ heap (run config (built ++ [EvTaskFiles pdfRequest fetched; EvBuild 0 Release])) !! 0
     = Some doneTask.
Proof.
  assert (H0 : heap (run config built) !! 0 = Some doneTask) by (vm_compute; reflexivity).
  assert (H1 : terminal doneTask) by (left; reflexivity).
  split; [exact H0|]. split; [exact H1|].
  exact (proj2 (X6_status_lifecycle config built 0 doneTask H0) H1 _).
Defined.

(** X7. A task is never removed and never rewritten: along every
    continuation of a run it keeps its place, its [ID] and its [CreatedAt],
    its [Files] and its [Errors] only grow at the end, and from the moment
    it holds its quota its [Files] stay as they are. *)
Theorem X7_task_history (cfg : Config) (evs evs' : list Event) (p : nat) (task : Task) :
  heap (run cfg evs) !! p = Some task ->
  exists task',
    heap (run cfg (evs ++ evs')) !! p = Some task'
    /\ ID task' = ID task /\ CreatedAt task' = CreatedAt task
    /\ Files task `prefix_of` Files task' /\ Errors task `prefix_of` Errors task'
    /\ (atQuota cfg task = true -> Files task' = Files task).
Proof.
  intros Hp.
  destruct (run_transitions cfg evs evs' p task Hp) as (task' & Hp' & Hr).
  exists task'. split; [done|]. by apply rtc_history.
Qed.

Lemma X7_witness :
  heap (run config threeFiles) !! 0 = Some fullTask
  /\ exists task',
       heap (run config built) !! 0 = Some task'
       /\ ID task' = ID fullTask /\ Files task' = Files fullTask.
Proof.
  assert (H0 : heap (run config threeFiles) !! 0 = Some fullTask) by (vm_compute; reflexivity).
  split; [exact H0|].
  destruct (X7_task_history config threeFiles
              [EvBuild 0 (OsCreate None); EvBuild 0 (ZipEntry EntryWritten);
               EvBuild 0 (ZipEntry EntryWritten); EvBuild 0 (ZipEntry EntryWritten);
               EvBuild 0 Finish] 0 fullTask H0)
    as (task' & Hp & Hi & _ & _ & _ & Hq).
  exists task'. split; [exact Hp|]. split; [exact Hi|]. apply Hq. reflexivity.
Defined.

(** X8. The registry is consistent and only grows: a registered id leads to
    an allocated task that carries this id, it stays registered along every
    continuation, and a GET routed by this id answers 200 with the report of
    that task under the same id, leaving the server unchanged. *)
Theorem X8_registry (cfg : Config) (evs : list Event) (id : string) (p : nat) :
  tasks (run cfg evs) !! id = Some p ->
  exists task,
    lookupTask (run cfg evs) id = Some (p, task)
    /\ ID task = id
    /\ (forall evs', is_Some (tasks (run cfg (evs ++ evs')) !! id))
    /\ forall r net,
         Method r = "GET" ->
         (TaskIDPathParts <= length (strings_Split (URLPath r) "/"))%nat ->
         nth 2 (strings_Split (URLPath r) "/") "" = id ->
         handleTaskFiles cfg (run cfg evs) r net
         = (run cfg evs, HttpJSON 200 (reportOf task), [OpLock; OpUnlock])
         /\ task_id (reportOf task) = id.
Proof.
  intros Hl. destruct (RegInv_run cfg evs) as [Hreg _].
  destruct (Hreg _ _ Hl) as (task & Hp & Hi). exists task.
  assert (Hlk : lookupTask (run cfg evs) id = Some (p, task)).
  { unfold lookupTask. by rewrite Hl, Hp. }
  split; [done|]. split; [done|]. split.
  - intros evs'. apply registered_stays. by rewrite Hl.
  - intros r net Hm Hlen Hn. split; [|done].
    apply (handleTaskFiles_GET cfg _ r net p task); [done|done|]. by rewrite Hn.
Qed.

Lemma X8_witness :
  tasks (run config threeFiles) !! "17" = Some 0
  /\ exists task, lookupTask (run config threeFiles) "17" = Some (0, task) /\ ID task = "17".
Proof.
  assert (H0 : tasks (run config threeFiles) !! "17" = Some 0) by (vm_compute; reflexivity).
  split; [exact H0|].
  destruct (X8_registry config threeFiles "17" 0 H0) as (task & Hl & Hi & _).
  exists task. split; [exact Hl|exact Hi].
Defined.

(** ** Downloads and archives *)

Lemma string_app_nonempty a b : a <> "" -> a +:+ b <> "".
Proof. by destruct a. Qed.

Lemma downloadFile_name url net data filename :
  downloadFile url net = inr (data, filename) ->
  filename <> "" /\ slashFree filename = true.
Proof.
  unfold downloadFile. intros H.
  destruct net as [err|code [err|body]]; [done| |].
  { by destruct (negb _). }
  destruct (negb (code =? 200)%Z); [done|].
  injection H as <- <-.
  destruct (filepath_Base_cases url) as [Hb|[Hb|[Hne Hsf]]].
  - rewrite Hb. cbn. split; [done|].
    change (slashFree ("file" +:+ filepath_Ext url) = true).
    rewrite slashFree_app. by rewrite filepath_Ext_slashFree.
  - rewrite Hb. cbn. split; [done|].
    change (slashFree ("file" +:+ filepath_Ext url) = true).
    rewrite slashFree_app. by rewrite filepath_Ext_slashFree.
  - destruct (String.eqb (filepath_Base url) "." || String.eqb (filepath_Base url) "/").
    + split; [done|]. rewrite slashFree_app. by rewrite filepath_Ext_slashFree.
    + done.
Qed.

(** X9. [downloadFile] succeeds only for a response with status 200 whose
    body could be read, and then returns that body; the file name it derives
    from the URL is never empty and never contains a path separator. *)
Theorem X9_downloadFile (url : string) (net : HttpGetResult) (data : list Byte.byte)
        (filename : string) :
  downloadFile url net = inr (data, filename) ->
  net = GetResponse 200 (ReadOK data)
  /\ filename <> ""
  /\ slashFree filename = true
  /\ downloadFile url (GetResponse 200 (ReadOK data)) = inr (data, filename).
Proof.
  intros H. destruct (downloadFile_name url net data filename H) as [Hn Hs].
  assert (Hnet : net = GetResponse 200 (ReadOK data)).
  { unfold downloadFile in H.
    destruct net as [err|code [err|body]]; [done| |].
    { by destruct (negb _). }
    destruct (negb (code =? 200)%Z) eqn:Hc; [done|].
    apply negb_false_iff, Z.eqb_eq in Hc. subst code. by injection H as <- _. }
  repeat split; try done. by rewrite <- Hnet.
Qed.

Lemma X9_witness :
  downloadFile "http://h/dir/" fetched = inr ([], "dir")
  /\ slashFree "dir" = true.
Proof.
  assert (H0 : downloadFile "http://h/dir/" fetched = inr ([], "dir")) by reflexivity.
  split; [exact H0|].
  exact (proj1 (proj2 (proj2 (X9_downloadFile _ _ _ _ H0)))).
Defined.

Lemma buildStep_counts cfg st g b :
  b <> Release ->
  length (heap (buildStep cfg st g b)) = length (heap st)
  /\ exited (buildStep cfg st g b) = exited st.
Proof.
  intros Hb. unfold buildStep.
  destruct (goroutines st !! g) as [gr|] eqn:Hg; [|done].
  destruct (heap st !! target gr) as [task0|] eqn:Hh; [|done].
  destruct b as [[err|]|res| |]; destruct (pc gr) as [|rest| |] eqn:Hpc;
    try done; try (by destruct rest).
  - cbn [heap setHeap setGoroutines]. rewrite length_insert. split; [done|].
    rewrite exited_insert by (by rewrite ?Hpc). cbn. lia.
  - cbn [heap setHeap setGoroutines]. rewrite length_insert. split; [done|].
    rewrite exited_insert by (by rewrite ?Hpc). cbn. lia.
  - destruct rest as [|file rest]; [done|].
    destruct (writeEntry file res task0 (zip gr)) as [task1 zip1].
    cbn [heap setHeap setGoroutines]. rewrite length_insert. split; [done|].
    rewrite exited_insert by (by rewrite ?Hpc). cbn. lia.
  - destruct rest as [|file rest]; [|done].
    cbn [heap setHeap setGoroutines]. rewrite length_insert. split; [done|].
    rewrite exited_insert by (by rewrite ?Hpc). cbn. lia.
Qed.

(** The steps of a build before its release neither create a task nor end a
    goroutine. *)
Lemma buildSchedule_counts cfg st g osCreate zipIO n :
  length (heap (fold_left (step cfg) (buildSchedule g osCreate zipIO n) st))
  = length (heap st)
  /\ exited (fold_left (step cfg) (buildSchedule g osCreate zipIO n) st) = exited st.
Proof.
  assert (Hmany : forall l st0,
            Forall (fun ev => exists b, ev = EvBuild g b /\ b <> Release) l ->
            length (heap (fold_left (step cfg) l st0)) = length (heap st0)
            /\ exited (fold_left (step cfg) l st0) = exited st0).
  { induction l as [|ev l IH]; intros st0 Hall; [done|].
    inversion Hall as [|? ? (b & -> & Hb) Hl]; subst. cbn [fold_left step].
    destruct (IH (buildStep cfg st0 g b) Hl) as [-> ->]. by apply buildStep_counts. }
  apply Hmany. unfold buildSchedule. constructor; [by eexists|].
  destruct osCreate; [constructor|].
  apply Forall_app. split; [|by repeat constructor; eexists].
  apply Forall_forall. intros ev Hin. apply list_elem_of_In in Hin.
  apply in_map_iff in Hin as (i & <- & _). by eexists.
Qed.

(** X10. A build that has been started and is left to run always returns:
    from [os.Create] through the entries to the deferred receive, it leaves
    the task as [createZipArchive] computes it ("failed" when the archive
    file could not be created, "completed" otherwise), takes one element
    out of the admission channel, and ends. *)
Theorem X10_build_runs_to_its_end (cfg : Config) (evs : list Event) (g p : nat) (task : Task)
        (osCreate : option string) (zipIO : nat -> EntryResult) :
  (0 <= MaxActiveTasks cfg)%Z ->
  goroutines (run cfg evs) !! g = Some (mkGoroutine p PcCreate []) ->
  heap (run cfg evs) !! p = Some task ->
  let st' := run cfg (evs ++ buildSchedule g osCreate zipIO (length (Files task))
                          ++ [EvBuild g Release]) in
  heap st' !! p = Some (fst (createZipArchive cfg osCreate zipIO task))
  /\ goroutines st' !! g
     = Some (mkGoroutine p PcExited (snd (createZipArchive cfg osCreate zipIO task)))
  /\ S (taskSem st') = taskSem (run cfg evs)
  /\ released st' = S (released (run cfg evs))
  /\ Status (fst (createZipArchive cfg osCreate zipIO task))
     = match osCreate with Some _ => "failed" | None => "completed" end.
Proof.
  intros Hcap Hg Hp st'.
  set (sched := buildSchedule g osCreate zipIO (length (Files task))).
  destruct (build_refines cfg (run cfg evs) g p task osCreate zipIO Hg Hp) as [Hh1 Hg1].
  cbv zeta in Hh1, Hg1. fold sched in Hh1, Hg1.
  assert (Hmid : fold_left (step cfg) sched (run cfg evs) = run cfg (evs ++ sched)).
  { unfold run. by rewrite fold_left_app. }
  rewrite Hmid in Hh1, Hg1.
  assert (Hsem : taskSem (run cfg (evs ++ sched)) = taskSem (run cfg evs)
                 /\ released (run cfg (evs ++ sched)) = released (run cfg evs)).
  { destruct (SemInv_run cfg (evs ++ sched) Hcap) as [Hb1 _ Ha1 Hr1].
    destruct (SemInv_run cfg evs Hcap) as [Hb0 _ Ha0 Hr0].
    pose proof (buildSchedule_counts cfg (run cfg evs) g osCreate zipIO
                  (length (Files task))) as Hlen.
    fold sched in Hlen. rewrite Hmid in Hlen.
    destruct Hlen as [Hl He]. split; lia. }
  destruct Hsem as [Hs1 Hr1].
  pose proof (release_enabled cfg _ g _ (Inv_run cfg (evs ++ sched))
                (SemInv_run cfg (evs ++ sched) Hcap) Hg1 eq_refl) as Hen.
  unfold st'. fold sched. rewrite app_assoc, run_snoc. cbn [step].
  rewrite (buildStep_at cfg _ g Release p PcRelease _ _ Hg1 Hh1). cbv zeta.
  destruct (taskSem (run cfg (evs ++ sched))) as [|n] eqn:Hn; [lia|].
  cbn [heap goroutines taskSem released].
  split; [done|]. split.
  { apply list_lookup_insert_eq. by eapply lookup_lt_Some. }
  split; [lia|]. split; [lia|].
  unfold createZipArchive. destruct osCreate; [done|].
  by destruct (writeEntries _ _ _ _ _).
Qed.

Lemma X10_witness :
  (0 <= MaxActiveTasks config)%Z
  /\ goroutines (run config threeFiles) !! 0 = Some (mkGoroutine 0 PcCreate [])
  /\ heap (run config threeFiles) !! 0 = Some fullTask
  /\ S (taskSem (run config (threeFiles
          ++ buildSchedule 0 (Some "disk full") (fun _ => EntryWritten) 3
          ++ [EvBuild 0 Release])))
     = taskSem (run config threeFiles).
Proof.
  assert (H0 : (0 <= MaxActiveTasks config)%Z) by (by vm_compute).
  assert (H1 : goroutines (run config threeFiles) !! 0 = Some (mkGoroutine 0 PcCreate []))
    by (vm_compute; reflexivity).
  assert (H2 : heap (run config threeFiles) !! 0 = Some fullTask) by (vm_compute; reflexivity).
  split; [exact H0|]. split; [exact H1|]. split; [exact H2|].
  exact (proj1 (proj2 (proj2 (X10_build_runs_to_its_end config threeFiles 0 0 fullTask
                                 (Some "disk full") (fun _ => EntryWritten) H0 H1 H2)))).
Defined.

Lemma string_length_app a b : String.length (a +:+ b) = String.length a + String.length b.
Proof. by rewrite <- !length_chars, chars_app, length_app. Qed.

(** X11. With a plain directory name as [TempFolder] (as "temp_archives"),
    a "completed" task has its archive at <TempFolder>/<ID>.zip, and the
    GET report gives the download URL /download/<ID>.zip. *)
Theorem X11_archive_location (cfg : Config) (evs : list Event) (p : nat) (task : Task) :
  slashFree (TempFolder cfg) = true ->
  TempFolder cfg <> "" -> TempFolder cfg <> "." -> TempFolder cfg <> ".." ->
  heap (run cfg evs) !! p = Some task ->
  Status task = "completed" ->
  ZipPath task = TempFolder cfg +:+ String "/" (ID task +:+ ".zip")
  /\ download_url (reportOf task) = Some ("/download/" +:+ ID task +:+ ".zip").
Proof.
  intros Hsf Hd0 Hd1 Hd2 Hp Hs.
  destruct (RegInv_run cfg evs) as [_ Hid]. destruct (Hid _ _ Hp) as [n Hn].
  assert (Hname : slashFree (ID task +:+ ".zip") = true).
  { rewrite slashFree_app, Hn. unfold generateTaskID. by rewrite itoa_slashFree. }
  assert (Hlen : 4 <= String.length (ID task +:+ ".zip")).
  { rewrite string_length_app. cbn. lia. }
  assert (Hn0 : ID task +:+ ".zip" <> "") by (intros E; rewrite E in Hlen; cbn in Hlen; lia).
  assert (Hn1 : ID task +:+ ".zip" <> ".") by (intros E; rewrite E in Hlen; cbn in Hlen; lia).
  assert (Hn2 : ID task +:+ ".zip" <> "..") by (intros E; rewrite E in Hlen; cbn in Hlen; lia).
  assert (Hz : ZipPath task = TempFolder cfg +:+ String "/" (ID task +:+ ".zip")).
  { destruct (zipPath_status cfg _ p task (Inv_run cfg evs) Hp)
      as [[Hc _]|[[Hc _]|[[Hc _]|[_ Hzp]]]]; try congruence.
    rewrite Hzp. unfold zipPathOf. by apply filepath_Join_plain. }
  split; [exact Hz|].
  unfold reportOf. cbn [download_url]. rewrite Hs, Hz.
  change (String.eqb "completed" "completed") with true. cbn [andb].
  assert (Hne : String.eqb (TempFolder cfg +:+ String "/" (ID task +:+ ".zip")) "" = false).
  { apply String.eqb_neq. intros E. apply (f_equal String.length) in E.
    rewrite string_length_app in E. cbn in E. lia. }
  rewrite Hne. cbn [negb]. by rewrite filepath_Base_last.
Qed.

Lemma X11_witness :
  slashFree (TempFolder config) = true
  /\ heap (run config built) !! 0 = Some doneTask
  /\ Status doneTask = "completed"
  /\ ZipPath doneTask = "temp_archives/17.zip"
  /\ download_url (reportOf doneTask) = Some "/download/17.zip".
Proof.
  assert (H0 : slashFree (TempFolder config) = true) by reflexivity.
  assert (H1 : TempFolder config <> "") by done.
  assert (H2 : TempFolder config <> ".") by done.
  assert (H3 : TempFolder config <> "..") by done.
  assert (H4 : heap (run config built) !! 0 = Some doneTask) by (vm_compute; reflexivity).
  assert (H5 : Status doneTask = "completed") by reflexivity.
  split; [exact H0|]. split; [exact H4|]. split; [exact H5|].
  exact (X11_archive_location config built 0 doneTask H0 H1 H2 H3 H4 H5).
Defined.

(** X12. One step of the server touches at most one task: there is an
    address such that every task at another address is after the step what
    it was before. *)
Theorem X12_one_task_per_step (cfg : Config) (st : State) (ev : Event) :
  exists p, forall q task,
    q <> p -> heap st !! q = Some task -> heap (step cfg st ev) !! q = Some task.
Proof.
  destruct ev as [r idNow createdNow|r net|g b]; cbn [step].
  - exists 0. intros q task _ Hq. unfold handleTasks.
    destruct (negb _); [done|]. destruct (_ <? _)%Z; [|done].
    cbn. rewrite lookup_app_l; [done|by eapply lookup_lt_Some].
  - unfold handleTaskFiles. destruct (_ <? _)%nat; [by exists 0|].
    destruct (lookupTask st _) as [[p task0]|]; [|by exists 0].
    exists p. intros q task Hne Hq.
    destruct (String.eqb (Method r) "POST"); cbn [fst].
    + destruct (dispatched _); cbn; by rewrite list_lookup_insert_ne.
    + by destruct (String.eqb (Method r) "GET").
  - unfold buildStep.
    destruct (goroutines st !! g) as [gr|]; [|by exists 0].
    destruct (heap st !! target gr) as [task0|]; [|by exists 0].
    exists (target gr). intros q task Hne Hq.
    destruct b as [[err|]|res| |]; destruct (pc gr) as [|rest| |];
      try done; try (by destruct rest); cbn;
      try (by rewrite list_lookup_insert_ne).
    + destruct rest as [|file rest]; [done|].
      destruct (writeEntry _ _ _ _). cbn. by rewrite list_lookup_insert_ne.
    + destruct rest as [|file rest]; [|done]. cbn. by rewrite list_lookup_insert_ne.
    + by destruct (taskSem st).
Qed.

Lemma entriesWritten_sublist files i zipIO :
  entriesWritten files i zipIO `sublist_of` List.map (fun f => (Filename f, Data f)) files.
Proof.
  revert i. induction files as [|file files IH]; intros i; [done|].
  cbn [entriesWritten List.map]. destruct (zipIO i); cbn [app].
  - by apply sublist_skip.
  - by apply sublist_cons.
  - by apply sublist_cons.
Qed.




(** X14. A POST on a task below its quota whose body decodes to a URL that
    passes both checks and whose fetch succeeds stores exactly one file, with
    the submitted URL, the fetched bytes and the name [downloadFile] derived;
    nothing else of the task changes except that the status becomes
    "processing" when the file is the one that fills the quota; the answer is
    202 and prints the id, the status and the number of files of the task as
    it is left. *)
Theorem X14_accepted_submission (cfg : Config) (r : Request) (net : HttpGetResult)
        (task : Task) (url : string) (data : list Byte.byte) (filename : string) :
  atQuota cfg task = false ->
  decodeJSONBody r = (inr url, true) ->
  isValidURL url = true ->
  hasAllowedExtension url = true ->
  downloadFile url net = inr (data, filename) ->
  let task' := after (postFile cfg r net task) in
  Files task' = Files task ++ [mkFile url filename data]
  /\ Errors task' = Errors task
  /\ ID task' = ID task /\ ZipPath task' = ZipPath task /\ CreatedAt task' = CreatedAt task
  /\ Status task'
     = (if (Z.of_nat (S (length (Files task))) =? MaxFilesPerTask cfg)%Z
        then "processing" else Status task)
  /\ dispatched (postFile cfg r net task)
     = (Z.of_nat (S (length (Files task))) =? MaxFilesPerTask cfg)%Z
  /\ response (postFile cfg r net task)
     = HttpReply 202 (jsonObj [("task_id", jstr (ID task')); ("status", jstr (Status task'));
                               ("files_count", itoa (Z.of_nat (length (Files task'))))]).
Proof.
  intros Hq Hd Hv He Hf. cbv zeta.
  rewrite (postFile_stored cfg r net task url true data filename Hq Hd Hv He Hf). cbv zeta.
  unfold reachesQuota. cbn [Files appendFile]. rewrite length_app. cbn [length].
  rewrite Nat.add_1_r.
  by destruct (Z.of_nat (S (length (Files task))) =? MaxFilesPerTask cfg)%Z.
Qed.

Lemma X14_witness :
  atQuota config task0 = false
  /\ Files (after (postFile config pdfRequest fetched task0)) = [pdfFile]
  /\ Status (after (postFile config pdfRequest fetched task0)) = "created".
Proof.
  assert (H0 : atQuota config task0 = false) by reflexivity.
  pose proof (X14_accepted_submission config pdfRequest fetched task0 "http://h/a.pdf" []
                "a.pdf" H0 eq_refl eq_refl eq_refl eq_refl) as (Hf & _ & _ & _ & _ & Hs & _).
  split; [exact H0|]. split; [exact Hf|exact Hs].
Defined.

(** ** Two tasks under one id *)







(** ** The type check and the fragment *)

Lemma strings_Cut_absent s c :
  forallb (fun d => negb (Ascii.eqb d c)) (chars s) = true ->
  strings_Cut s c = (s, "", false).
Proof.
  induction s as [|d s IH]; [done|]. cbn. intros H.
  apply andb_true_iff in H as [Hd Hs]. apply negb_true_iff in Hd.
  rewrite Hd, (IH Hs). done.
Qed.

Lemma strings_Cut_first a b c :
  forallb (fun d => negb (Ascii.eqb d c)) (chars a) = true ->
  strings_Cut (a +:+ String c b) c = (a, b, true).
Proof.
  induction a as [|d a IH]; cbn.
  - intros _. change ("" +:+ String c b) with (String c b). cbn.
    by rewrite Ascii.eqb_refl.
  - intros H. apply andb_true_iff in H as [Hd Hs]. apply negb_true_iff in Hd.
    change (String d a +:+ String c b) with (String d (a +:+ String c b)).
    cbn. rewrite Hd, (IH Hs). done.
Qed.

(** X16. The file type check does not see the fragment of a URL: with a
    fragment that unescapes, [parseURL] and [hasAllowedExtension] give what
    they give for the URL without it; with a fragment that does not
    unescape the URL is refused. *)
Theorem X16_fragment_ignored_by_type_check (url frag : string) :
  hashFree url = true ->
  (unescapeStr encodeFragment frag <> None ->
   parseURL (url +:+ String "#" frag) = parseURL url
   /\ hasAllowedExtension (url +:+ String "#" frag) = hasAllowedExtension url)
  /\ (unescapeStr encodeFragment frag = None ->
      hasAllowedExtension (url +:+ String "#" frag) = false).
Proof.
  intros Hh. unfold hashFree in Hh.
  assert (H1 : url_Parse url = url_parse url).
  { unfold url_Parse. rewrite strings_Cut_absent by done.
    by destruct (url_parse url). }
  assert (H2 : url_Parse (url +:+ String "#" frag)
               = match url_parse url with
                 | None => None
                 | Some u =>
                     if String.eqb frag "" then Some u
                     else match unescapeStr encodeFragment frag with
                          | Some f => Some (mkURL (Scheme u) (Opaque u) (Host u) (Path u)
                                                  (RawQuery u) f)
                          | None => None
                          end
                 end).
  { unfold url_Parse. by rewrite strings_Cut_first. }
  split.
  - intros Hf.
    assert (Hp : parseURL (url +:+ String "#" frag) = parseURL url).
    { unfold parseURL. rewrite H1, H2.
      destruct (url_parse url) as [u|]; [|done].
      destruct (String.eqb frag ""); [done|].
      by destruct (unescapeStr encodeFragment frag). }
    split; [done|]. unfold hasAllowedExtension. by rewrite Hp.
  - intros Hf. unfold hasAllowedExtension, parseURL. rewrite H2.
    destruct (url_parse url) as [u|]; [|done].
    destruct (String.eqb frag "") eqn:E.
    + apply String.eqb_eq in E. by subst.
    + by rewrite Hf.
Qed.

Lemma X16_witness :
  hashFree "http://h/a.exe" = true
  /\ hasAllowedExtension "http://h/a.exe#x.pdf" = hasAllowedExtension "http://h/a.exe"
  /\ hasAllowedExtension "http://h/a.pdf#%zz" = false.
Proof.
  assert (H0 : hashFree "http://h/a.exe" = true) by reflexivity.
  assert (H1 : hashFree "http://h/a.pdf" = true) by reflexivity.
  split; [exact H0|]. split.
  - refine (proj2 (proj1 (X16_fragment_ignored_by_type_check "http://h/a.exe" "x.pdf" H0) _)).
    discriminate.
  - exact (proj2 (X16_fragment_ignored_by_type_check "http://h/a.pdf" "%zz" H1) eq_refl).
Defined.

(** ** What is stored *)

Lemma postFile_files cfg r net task :
  Files (after (postFile cfg r net task)) = Files task
  \/ exists f, checkedFile f
       /\ Files (after (postFile cfg r net task)) = Files task ++ [f].
Proof.
  destruct (atQuota cfg task) eqn:Hq.
  { rewrite postFile_atQuota by done. by left. }
  destruct (decodeJSONBody r) as [[err|url] read] eqn:Hd.
  { erewrite postFile_badBody by done. by left. }
  destruct (isValidURL url) eqn:Hv.
  2:{ erewrite postFile_badURL by done. by left. }
  destruct (hasAllowedExtension url) eqn:He.
  2:{ erewrite postFile_badType by done. by left. }
  destruct (downloadFile url net) as [err|[data filename]] eqn:Hf.
  { erewrite postFile_fetchFailed by done. by left. }
  right. exists (mkFile url filename data). split.
  - destruct (downloadFile_name url net data filename Hf) as [Hn Hs]. by repeat split.
  - erewrite postFile_stored by done. cbv zeta. by destruct (reachesQuota _ _).
Qed.

Lemma buildStep_files cfg st g b p task :
  heap st !! p = Some task ->
  exists task', heap (buildStep cfg st g b) !! p = Some task' /\ Files task' = Files task.
Proof.
  intros Hp. unfold buildStep.
  destruct (goroutines st !! g) as [gr|]; [|by exists task].
  destruct (heap st !! target gr) as [task0|] eqn:Hh; [|by exists task].
  assert (Hstore : forall task1 gs, Files task1 = Files task0 ->
            exists task',
              heap (setGoroutines gs (setHeap (<[target gr := task1]> (heap st)) st)) !! p
              = Some task' /\ Files task' = Files task).
  { intros task1 gs Hf. cbn [heap setHeap setGoroutines].
    destruct (insert_lookup_cases (heap st) (target gr) task1 p task Hp)
      as [[-> Hl]|[Hne Hl]]; rewrite Hl; [|by exists task].
    exists task1. split; [done|]. congruence. }
  destruct b as [[err|]|res| |]; destruct (pc gr) as [|rest| |];
    try (by exists task); try (by destruct rest; exists task).
  - by apply Hstore.
  - by apply Hstore.
  - destruct rest as [|file rest]; [by exists task|].
    destruct (writeEntry file res task0 (zip gr)) as [task1 zip1] eqn:Hw.
    apply Hstore. unfold writeEntry in Hw. by destruct res; injection Hw as <- <-.
  - destruct rest as [|file rest]; [|by exists task]. by apply Hstore.
  - destruct (taskSem st); by exists task.
Qed.

Lemma step_files cfg st ev p task0 task :
  heap st !! p = Some task0 -> heap (step cfg st ev) !! p = Some task ->
  Files task = Files task0
  \/ exists f, checkedFile f /\ Files task = Files task0 ++ [f].
Proof.
  intros H0 Hp. destruct ev as [r idNow createdNow|r net|g b]; cbn [step] in Hp.
  - left. revert Hp. unfold handleTasks. destruct (negb _); cbn [fst]; [congruence|].
    destruct (_ <? _)%Z; cbn [fst]; [|congruence]. cbn.
    rewrite lookup_app_l by (by eapply lookup_lt_Some). congruence.
  - revert Hp. unfold handleTaskFiles.
    destruct (_ <? _)%nat; cbn [fst]; [left; congruence|].
    destruct (lookupTask st _) as [[q task1]|] eqn:Hl; cbn [fst]; [|left; congruence].
    apply lookupTask_Some in Hl.
    destruct (String.eqb (Method r) "POST"); cbn [fst];
      [|destruct (String.eqb (Method r) "GET"); cbn [fst]; left; congruence].
    intros Hp.
    assert (Hp' : <[q := after (postFile cfg r net task1)]> (heap st) !! p = Some task)
      by (by destruct (dispatched _)).
    destruct (insert_lookup_cases (heap st) q (after (postFile cfg r net task1))
                p task0 H0) as [[-> Hi]|[Hne Hi]]; rewrite Hi in Hp'; [|left; congruence].
    injection Hp' as <-. rewrite H0 in Hl. injection Hl as <-.
    apply postFile_files.
  - left. destruct (buildStep_files cfg st g b p task0 H0) as (task' & Hp' & Hf).
    congruence.
Qed.

Lemma stored_files_checked cfg evs p task :
  heap (run cfg evs) !! p = Some task -> Forall checkedFile (Files task).
Proof.
  revert p task. induction evs as [|ev evs IH] using rev_ind; intros p task Hp; [done|].
  rewrite run_snoc in Hp.
  destruct (heap (run cfg evs) !! p) as [task0|] eqn:H0.
  2:{ destruct (step_new cfg _ ev p task H0 Hp) as (-> & _). constructor. }
  specialize (IH _ _ H0).
  destruct (step_files cfg _ ev p task0 task H0 Hp) as [->|(f & Hf & ->)]; [done|].
  apply Forall_app. split; [done|]. by constructor.
Qed.

(** X17. Only checked files are ever stored: in every state the server can
    reach, each file of each task carries a URL that passed [isValidURL] and
    [hasAllowedExtension] and a name that is not empty and holds no path
    separator; the names of the entries [createZipArchive] writes for the
    task are therefore not empty and hold no separator either. *)
Theorem X17_stored_files_are_checked (cfg : Config) (evs : list Event) (p : nat) (task : Task) :
  heap (run cfg evs) !! p = Some task ->
  Forall checkedFile (Files task)
  /\ forall zipIO name data,
       In (name, data) (snd (createZipArchive cfg None zipIO task)) ->
       name <> "" /\ slashFree name = true.
Proof.
  intros Hp. pose proof (stored_files_checked cfg evs p task Hp) as Hall.
  split; [done|]. intros zipIO name data Hin.
  assert (Hsub : snd (createZipArchive cfg None zipIO task)
                   `sublist_of` List.map (fun f => (Filename f, Data f)) (Files task)).
  { unfold createZipArchive.
    pose proof (writeEntries_spec (Files task) 0 zipIO task []) as Hs.
    destruct (writeEntries (Files task) 0 zipIO task []) as [task1 zip1].
    destruct Hs as [-> ->]. apply entriesWritten_sublist. }
  apply list_elem_of_In in Hin.
  apply (elem_of_sublist _ _ _ Hin) in Hsub.
  apply list_elem_of_In, in_map_iff in Hsub as (f & [= <- <-] & Hf).
  rewrite Forall_forall in Hall. apply list_elem_of_In in Hf.
  by destruct (Hall f Hf) as (_ & _ & Hn & Hs).
Qed.

Lemma X17_witness :
  heap (run config threeFiles) !! 0 = Some fullTask
  /\ Forall checkedFile (Files fullTask).
Proof.
  assert (H0 : heap (run config threeFiles) !! 0 = Some fullTask) by (vm_compute; reflexivity).
  split; [exact H0|].
  exact (proj1 (X17_stored_files_are_checked config threeFiles 0 fullTask H0)).
Defined.

(** X18. A task that holds its quota never accepts another file: whatever
    happens afterwards, every POST that reaches it is answered with the
    quota error, before the body is read, and leaves it as it is. *)
Theorem X18_full_task_stays_closed (cfg : Config) (evs evs' : list Event) (p : nat)
        (task : Task) (r : Request) (net : HttpGetResult) :
  heap (run cfg evs) !! p = Some task ->
  atQuota cfg task = true ->
  exists task',
    heap (run cfg (evs ++ evs')) !! p = Some task'
    /\ Files task' = Files task
    /\ postFile cfg r net task' = mkRun (inl quotaError) task' [OpLock; OpUnlock].
Proof.
  intros Hp Hq.
  destruct (run_transitions cfg evs evs' p task Hp) as (task' & Hp' & Hr).
  destruct (rtc_history cfg task task' Hr) as (_ & _ & _ & _ & Hf).
  exists task'. split; [done|]. split; [by apply Hf|].
  apply postFile_atQuota. unfold atQuota in *. by rewrite Hf.
Qed.

Lemma X18_witness :
  heap (run config threeFiles) !! 0 = Some fullTask
  /\ atQuota config fullTask = true
  /\ exists task',
       heap (run config built) !! 0 = Some task'
       /\ postFile config pdfRequest fetched task'
          = mkRun (inl quotaError) task' [OpLock; OpUnlock].
Proof.
  assert (H0 : heap (run config threeFiles) !! 0 = Some fullTask) by (vm_compute; reflexivity).
  assert (H1 : atQuota config fullTask = true) by reflexivity.
  split; [exact H0|]. split; [exact H1|].
  destruct (X18_full_task_stays_closed config threeFiles
              [EvBuild 0 (OsCreate None); EvBuild 0 (ZipEntry EntryWritten);
               EvBuild 0 (ZipEntry EntryWritten); EvBuild 0 (ZipEntry EntryWritten);
               EvBuild 0 Finish] 0 fullTask pdfRequest fetched H0 H1)
    as (task' & Hp & _ & Hr).
  exists task'. split; [exact Hp|exact Hr].
Defined.
